(** * The questionnaire response service of [server.js]

    The repository holds three variants of one Express + SQLite server
    (they are concatenated in [src/server.js]).  Each request handler
    validates its input, issues one or more statements against the single
    table [responses] and maps the driver's answer to an HTTP response.

    The embedding follows that shape:
    - JavaScript values, truthiness, [||] and template literals ([JS]);
    - the table, the statements the handlers issue and what SQLite does
      with them (AUTOINCREMENT, NOT NULL, type affinity, LIKE, ORDER BY,
      COUNT), and how the driver binds parameters;
    - one function per handler, taking the variant, the request, the
      store's clock, whether the driver reports an error, and the
      database state, and returning the new state and the response.

    What the model fixes:
    - strings are Rocq strings, one [ascii] per character;
    - a failing store call (I/O error, locked file, ...) is an input of
      the handler, the [fault] flag of the call;
    - a handler runs against one state of the database: requests are
      taken one at a time.  The statistics handlers of variants 2 and 3,
      which issue their statements one after the other, are also given
      with one state per statement;
    - a JavaScript number is the integer it holds, and an array or object
      the text it converts to; the store's integers are exact, and
      [js_number] is what becomes of one when JavaScript reads it;
    - SQL leaves the order of rows with equal sort keys open; here they
      keep the order of the table;
    - the static routes and the start and stop of the process are not
      modelled. *)

From Stdlib Require Import ZArith List String Ascii Sorted Permutation Lia Bool.
From Stdlib Require Import DecimalString DecimalZ DecimalPos.
From stdpp Require Import base list strings gmap.

Open Scope string_scope.

(** ** Characters the literals below cannot spell directly *)

Definition dquote : string := String "034"%char EmptyString.
Definition newline : string := String "010"%char EmptyString.

(** Decimal rendering of an integer, as [String(n)] and SQLite's integer to
    text conversion both produce it. *)
Definition decimal (n : Z) : string := NilZero.string_of_int (Z.to_int n).

(** ** JavaScript values *)

Module JS.

(** The values a parsed body field, a header or a query parameter can
    hold.  Numbers are the integers.  The handlers do three things with an
    array or an object: test it, write it into a template literal, and
    pass it to the driver, which binds its text; so it is given by
    [text], what its [toString] returns: the elements joined with commas
    for an array, and the empty string for the empty one.  An object
    whose conversion to text fails is left out. *)
Inductive jsval :=
| JUndefined
| JNull
| JBool (b : bool)
| JNum (n : Z)
| JStr (s : string)
| JObject (text : string).

(** [ToBoolean]: what [!v] and [v || w] test. *)
Definition truthy (v : jsval) : bool :=
  match v with
  | JUndefined | JNull => false
  | JBool b => b
  | JNum n => negb (n =? 0)%Z
  | JStr s => negb (String.eqb s "")
  | JObject _ => true
  end.

(** [a || b] *)
Definition or (a b : jsval) : jsval := if truthy a then a else b.

(** [`${v}`] *)
Definition template (v : jsval) : string :=
  match v with
  | JUndefined => "undefined"
  | JNull => "null"
  | JBool true => "true"
  | JBool false => "false"
  | JNum n => decimal n
  | JStr s => s
  | JObject text => text
  end.

End JS.
Import JS.

(** ** The store *)

(** A value a statement returns. *)
Inductive sqlval :=
| SqlNull
| SqlInt (n : Z)
| SqlText (s : string).

(** A parameter as the driver hands it to SQLite.  [PFloat n] is the double
    whose value is the integer [n]. *)
Inductive param :=
| PNull
| PInteger (n : Z)
| PFloat (n : Z)
| PText (s : string).

Definition fits_int32 (n : Z) : bool :=
  ((- 2 ^ 31 <=? n) && (n <? 2 ^ 31))%Z.

(** How the driver binds a JavaScript parameter: [undefined] leaves the
    parameter unbound, which SQLite reads as NULL.  A number is bound as
    an integer when it fits 32 bits and as a double otherwise, an array or
    object as its text. *)
Definition bind (v : jsval) : param :=
  match v with
  | JUndefined | JNull => PNull
  | JBool b => PInteger (if b then 1 else 0)
  | JNum n => if fits_int32 n then PInteger n else PFloat n
  | JStr s => PText s
  | JObject text => PText text
  end.

(** The digits of [n] on [width] places, zeros in front. *)
Fixpoint padded (width : nat) (n : Z) : string :=
  match width with
  | O => ""
  | S w => padded w (n / 10) ++ decimal (n mod 10)
  end.

(** Zeros at the end dropped, one digit kept. *)
Fixpoint strip_zeros (digits : string) : string :=
  match digits with
  | String c rest =>
      match strip_zeros rest with
      | "" => if Ascii.eqb c "0" then "" else String c ""
      | kept => String c kept
      end
  | "" => ""
  end.

Definition fraction_digits (digits : string) : string :=
  match strip_zeros digits with
  | "" => "0"
  | kept => kept
  end.

(** SQLite's text of a double with an integer value (its [%!.15g]): a
    number of up to fifteen digits is written out and followed by [.0]; a
    longer one is rounded to fifteen digits and written with an exponent. *)
Definition real_text (n : Z) : string :=
  let a := Z.abs n in
  if (a <? 10 ^ 15)%Z then decimal n ++ ".0"
  else
    let places := Z.of_nat (String.length (decimal a)) in
    let scale := (10 ^ (places - 15))%Z in
    let rounded := ((a + scale / 2) / scale)%Z in
    let mantissa := if (rounded <? 10 ^ 15)%Z then rounded else (rounded / 10)%Z in
    let exponent := if (rounded <? 10 ^ 15)%Z then (places - 1)%Z else places in
    (if (n <? 0)%Z then "-" else "") ++
    decimal (mantissa / 10 ^ 14) ++ "." ++
    fraction_digits (padded 14 (mantissa mod 10 ^ 14)) ++
    "e+" ++ decimal exponent.

(** A column declared TEXT stores NULL or text: numbers are converted. *)
Definition text_affinity (v : param) : option string :=
  match v with
  | PNull => None
  | PInteger n => Some (decimal n)
  | PFloat n => Some (real_text n)
  | PText s => Some s
  end.

(** One row of [responses]; the fields are the columns of CREATE TABLE. *)
Record Row := mkRow {
  id : Z;
  first_name : option string;
  email : option string;
  question_1 : option string;
  question_2 : option string;
  question_3 : option string;
  question_4 : option string;
  question_5 : option string;
  submitted_at : option string;
  ip_address : option string;
  user_agent : option string
}.

(** The database file: the table in rowid order and the AUTOINCREMENT
    high-water mark SQLite keeps in [sqlite_sequence]. *)
Record Db := mkDb {
  responses : list Row;
  sqlite_sequence : Z
}.

Definition empty_db : Db := {| responses := []; sqlite_sequence := 0 |}.

(** What a driver callback receives: [err], or the statement's result. *)
Inductive db_result (A : Type) :=
| DbErr
| DbOk (a : A).
Arguments DbErr {A}.
Arguments DbOk {A} a.

Definition db_call {A : Type} (fault : bool) (a : A) : db_result A :=
  if fault then DbErr else DbOk a.

(** *** INSERT *)

Definition MAX_ROWID : Z := 2 ^ 63 - 1.

Definition max_rowid (rows : list Row) : Z :=
  fold_right (fun r m => Z.max (id r) m) 0%Z rows.

(** The largest rowid that ever existed in the table. *)
Definition high_water (db : Db) : Z :=
  Z.max (max_rowid (responses db)) (sqlite_sequence db).

(** [INSERT INTO responses (first_name, email, question_1, ..., question_5,
    ip_address, user_agent) VALUES (?, ?, ?, ?, ?, ?, ?, ?, ?)].
    [id] is AUTOINCREMENT: one more than the largest rowid ever used, and
    the statement fails once that is the largest possible rowid.
    [first_name] and [email] are NOT NULL.  [submitted_at] defaults to the
    store's clock.  The result is the rowid of the new row. *)
Definition sql_insert (now : string) (params : list jsval) (db : Db)
  : Db * db_result Z :=
  match List.map (fun p => text_affinity (bind p)) params with
  | [Some fn; Some em; q1; q2; q3; q4; q5; ip; ua] =>
      if (MAX_ROWID <=? high_water db)%Z then (db, DbErr)
      else
        let rid := (high_water db + 1)%Z in
        let row := {| id := rid; first_name := Some fn; email := Some em;
                      question_1 := q1; question_2 := q2; question_3 := q3;
                      question_4 := q4; question_5 := q5;
                      submitted_at := Some now;
                      ip_address := ip; user_agent := ua |} in
        ({| responses := responses db ++ [row]; sqlite_sequence := rid |},
         DbOk rid)
  | _ => (db, DbErr)
  end.

Definition db_run_insert (fault : bool) (now : string) (params : list jsval)
  (db : Db) : Db * db_result Z :=
  if fault then (db, DbErr) else sql_insert now params db.

(** *** Rowids as JavaScript numbers *)

(** [Number.MAX_SAFE_INTEGER] *)
Definition MAX_SAFE_INTEGER : Z := 2 ^ 53 - 1.

(** A rowid is a 64-bit integer; the driver hands it to JavaScript, as
    [this.lastID] say, as a number, that is as a double.  Up to 2^53 the
    double is the integer itself; beyond, the integer is rounded to 53
    significant bits, to the nearest double and to the even one of two
    that are equally near. *)
Definition js_number (n : Z) : Z :=
  let a := Z.abs n in
  if (a <=? 2 ^ 53)%Z then n
  else
    let unit := (2 ^ (Z.log2 a - 52))%Z in
    let q := (a / unit)%Z in
    let r := (a mod unit)%Z in
    let half := (unit / 2)%Z in
    let m := if (r <? half)%Z then q
             else if (half <? r)%Z then (q + 1)%Z
             else if Z.even q then q else (q + 1)%Z in
    (Z.sgn n * (m * unit))%Z.

(** *** WHERE id = ? *)

(** The path parameter reaches SQLite as text and is compared with the
    rowid, so it is read as a number first: blanks, an optional sign,
    digits with an optional point among them, an optional exponent,
    blanks.  Anything else is no number and matches no row. *)

Definition is_space (c : ascii) : bool :=
  let n := N_of_ascii c in ((n =? 32) || ((9 <=? n) && (n <=? 13)))%N.

Definition is_digit (c : ascii) : bool :=
  let n := N_of_ascii c in ((48 <=? n) && (n <=? 57))%N.

Fixpoint skip_spaces (s : string) : string :=
  match s with
  | String c rest => if is_space c then skip_spaces rest else s
  | "" => ""
  end.

(** The digits [s] starts with, and what follows them. *)
Fixpoint read_digits (s : string) : string * string :=
  match s with
  | String c rest =>
      if is_digit c then
        let '(digits, after) := read_digits rest in (String c digits, after)
      else ("", s)
  | "" => ("", "")
  end.

Fixpoint digits_value (acc : Z) (digits : string) : Z :=
  match digits with
  | String c rest =>
      digits_value (10 * acc + (Z.of_N (N_of_ascii c) - 48))%Z rest
  | "" => acc
  end.

Definition read_sign (s : string) : Z * string :=
  match s with
  | String "-" rest => ((-1)%Z, rest)
  | String "+" rest => (1%Z, rest)
  | _ => (1%Z, s)
  end.

(** A numeric text as [(real, m, e)]: its value is [m * 10 ^ e], and [real]
    tells whether it is written with a point or an exponent. *)
Definition numeric_text (s : string) : option (bool * Z * Z) :=
  let '(sign, s1) := read_sign (skip_spaces s) in
  let '(whole, s2) := read_digits s1 in
  let '(point, fraction, s3) :=
    match s2 with
    | String "." rest => let '(f, after) := read_digits rest in (true, f, after)
    | _ => (false, "", s2)
    end in
  let exponent_part :=
    match s3 with
    | String c rest =>
        if Ascii.eqb c "e" || Ascii.eqb c "E" then
          let '(esign, s4) := read_sign rest in
          let '(edigits, s5) := read_digits s4 in
          if String.eqb edigits "" then None
          else Some (true, (esign * digits_value 0 edigits)%Z, s5)
        else Some (false, 0%Z, s3)
    | "" => Some (false, 0%Z, "")
    end in
  match exponent_part with
  | None => None
  | Some (has_exponent, e, rest) =>
      if String.eqb (whole ++ fraction) "" then None
      else if negb (String.eqb (skip_spaces rest) "") then None
      else Some (point || has_exponent,
                 (sign * digits_value 0 (whole ++ fraction))%Z,
                 (e - Z.of_nat (String.length fraction))%Z)
  end.

(** [m * 10 ^ e] when that is an integer, and not one of more than twenty
    digits, which is beyond every rowid; [places] bounds the number of
    digits of [m]. *)
Definition integer_value (m e : Z) (places : nat) : option Z :=
  if (m =? 0)%Z then Some 0%Z
  else if (0 <=? e)%Z then
    if (e <=? 19)%Z then Some (m * 10 ^ e)%Z else None
  else if (Z.of_nat places <? - e)%Z then None
  else if (m mod 10 ^ (- e) =? 0)%Z then Some (m / 10 ^ (- e))%Z
  else None.

(** The rowid a text selects.  An integer literal is read exactly.  A text
    written with a point or an exponent is read as a double, and selects
    the row whose rowid is that double; the model reads such a text when
    its value is an integer and rounds it as [js_number] does.  A text
    whose value is not an integer is read as no rowid, also where the
    nearest double is an integer. *)
Definition rowid_of_text (s : string) : option Z :=
  match NilZero.int_of_string s with
  | Some i => Some (Z.of_int i)
  | None =>
      match numeric_text s with
      | Some (false, m, _) => Some m
      | Some (true, m, e) =>
          option_map js_number
            (integer_value m e (String.length s))
      | None => None
      end
  end.

Definition id_matches (param : string) (r : Row) : bool :=
  match rowid_of_text param with
  | Some k => (k =? id r)%Z
  | None => false
  end.

(** [SELECT * FROM responses WHERE id = ?] through [db.get]: the first
    matching row, or [undefined]. *)
Definition sql_select_by_id (param : string) (db : Db) : option Row :=
  List.find (id_matches param) (responses db).

(** [DELETE FROM responses WHERE id = ?]; the second component is the
    driver's [this.changes]. *)
Definition sql_delete_by_id (param : string) (db : Db) : Db * nat :=
  let kept := List.filter (fun r => negb (id_matches param r)) (responses db) in
  ({| responses := kept; sqlite_sequence := sqlite_sequence db |},
   (length (responses db) - length kept)%nat).

(** *** ORDER BY submitted_at DESC *)

(** SQLite orders NULL before any text and text by its bytes. *)
Definition sql_leb (a b : option string) : bool :=
  match a, b with
  | None, _ => true
  | Some _, None => false
  | Some x, Some y => String.leb x y
  end.

Fixpoint insert_desc (r : Row) (sorted : list Row) : list Row :=
  match sorted with
  | [] => [r]
  | x :: rest =>
      if sql_leb (submitted_at r) (submitted_at x)
      then x :: insert_desc r rest
      else r :: sorted
  end.

(** The rows are inserted one by one, in table order, each after the rows
    that are not older: rows with equal keys keep the order of the table. *)
Definition order_by_submitted_at_desc (rows : list Row) : list Row :=
  fold_left (fun sorted r => insert_desc r sorted) rows [].

(** [SELECT * FROM responses ORDER BY submitted_at DESC] *)
Definition sql_select_all (db : Db) : list Row :=
  order_by_submitted_at_desc (responses db).

(** *** LIKE *)

(** SQLite folds the case of ASCII letters only. *)
Definition to_lower (c : ascii) : ascii :=
  let n := nat_of_ascii c in
  if (65 <=? n)%nat && (n <=? 90)%nat then ascii_of_nat (n + 32) else c.

(** [text LIKE pattern] with no ESCAPE clause: [%] matches any run of
    characters, [_] any one character, anything else itself up to the
    case of ASCII letters. *)
Fixpoint like (pattern : string) : string -> bool :=
  match pattern with
  | EmptyString => fun text => String.eqb text ""
  | String p pattern' =>
      if Ascii.eqb p "%" then
        fix any_run (text : string) : bool :=
          like pattern' text ||
          match text with
          | EmptyString => false
          | String _ text' => any_run text'
          end
      else if Ascii.eqb p "_" then
        fun text =>
          match text with
          | EmptyString => false
          | String _ text' => like pattern' text'
          end
      else
        fun text =>
          match text with
          | EmptyString => false
          | String c text' =>
              Ascii.eqb (to_lower p) (to_lower c) && like pattern' text'
          end
  end.

(** A NULL operand makes LIKE NULL, which WHERE does not select. *)
Definition sql_like (value : option string) (pattern : string) : bool :=
  match value with
  | None => false
  | Some text => like pattern text
  end.

(** [SELECT * FROM responses WHERE first_name LIKE ? OR email LIKE ?
    ORDER BY submitted_at DESC], both parameters bound to [pattern]. *)
Definition sql_search (pattern : string) (db : Db) : list Row :=
  order_by_submitted_at_desc
    (List.filter
       (fun r => sql_like (first_name r) pattern || sql_like (email r) pattern)
       (responses db)).

(** *** Aggregates *)

(** [DATE(t)] of a timestamp in the format of CURRENT_TIMESTAMP,
    [YYYY-MM-DD HH:MM:SS]. *)
Definition sql_date (t : option string) : option string :=
  option_map (substring 0 10) t.

Definition same_date (a b : option string) : bool :=
  match a, b with
  | Some x, Some y => String.eqb x y
  | _, _ => false
  end.

(** [SELECT COUNT( * ) as count FROM responses] *)
Definition sql_count_total (db : Db) : Z :=
  Z.of_nat (length (responses db)).

(** [SELECT COUNT( * ) as count FROM responses
     WHERE DATE(submitted_at) = DATE('now')] *)
Definition sql_count_today (now : string) (db : Db) : Z :=
  Z.of_nat (length (List.filter
    (fun r => same_date (sql_date (submitted_at r)) (sql_date (Some now)))
    (responses db))).

(** [SELECT COUNT(DISTINCT email) as count FROM responses]: NULLs are not
    counted. *)
Definition sql_count_unique_emails (db : Db) : Z :=
  Z.of_nat (length (remove_dups (omap email (responses db)))).

(** *** Result rows *)

Inductive column :=
| c_id | c_first_name | c_email
| c_question_1 | c_question_2 | c_question_3 | c_question_4 | c_question_5
| c_submitted_at | c_ip_address | c_user_agent.

#[global] Instance column_eq_dec : EqDecision column.
Proof. solve_decision. Defined.

Definition sql_text (t : option string) : sqlval :=
  match t with
  | None => SqlNull
  | Some s => SqlText s
  end.

Definition col_value (r : Row) (c : column) : sqlval :=
  match c with
  | c_id => SqlInt (id r)
  | c_first_name => sql_text (first_name r)
  | c_email => sql_text (email r)
  | c_question_1 => sql_text (question_1 r)
  | c_question_2 => sql_text (question_2 r)
  | c_question_3 => sql_text (question_3 r)
  | c_question_4 => sql_text (question_4 r)
  | c_question_5 => sql_text (question_5 r)
  | c_submitted_at => sql_text (submitted_at r)
  | c_ip_address => sql_text (ip_address r)
  | c_user_agent => sql_text (user_agent r)
  end.

(** The object the driver builds for a row: one property per selected
    column. *)
Definition result_row := list (column * sqlval).

Definition select (cols : list column) (r : Row) : result_row :=
  List.map (fun c => (c, col_value r c)) cols.

(** [SELECT *] *)
Definition all_columns : list column :=
  [c_id; c_first_name; c_email;
   c_question_1; c_question_2; c_question_3; c_question_4; c_question_5;
   c_submitted_at; c_ip_address; c_user_agent].

(** The column list variants 1 and 2 spell out in [GET /api/responses];
    variant 3 selects [*] there too. *)
Definition listed_columns : list column :=
  [c_id; c_first_name; c_email;
   c_question_1; c_question_2; c_question_3; c_question_4; c_question_5;
   c_submitted_at; c_ip_address].

(** The JavaScript value the driver hands over for a stored value. *)
Definition js_of_sql (value : sqlval) : jsval :=
  match value with
  | SqlNull => JNull
  | SqlInt n => JNum n
  | SqlText s => JStr s
  end.

(** [row.column] on such an object. *)
Definition property (o : result_row) (c : column) : jsval :=
  match List.find (fun p => bool_decide (fst p = c)) o with
  | None => JUndefined
  | Some (_, value) => js_of_sql value
  end.

(** ** Requests and responses *)

Module Req.

(** [req.body] of [POST /api/submit-questionnaire]. *)
Record Body := mkBody {
  firstName : jsval;
  email : jsval;
  question1 : jsval;
  question2 : jsval;
  question3 : jsval;
  question4 : jsval;
  question5 : jsval
}.

(** What the handlers read from a request. *)
Record t := mk {
  body : Body;
  x_forwarded_for : jsval;   (* req.headers['x-forwarded-for'] *)
  user_agent : jsval;        (* req.headers['user-agent'], req.get('user-agent') *)
  remoteAddress : jsval;     (* req.connection.remoteAddress *)
  ip : jsval;                (* req.ip *)
  params_id : string;        (* req.params.id *)
  query : jsval              (* req.query.query *)
}.

End Req.

(** The three servers of the repository, in the order of the file. *)
Inductive variant := V1 | V2 | V3.

(** What a handler sends.  [Saved] carries [this.lastID] as the store
    assigned it; the number a client reads is [js_number responseId]. *)
Inductive payload :=
| Message (success : bool) (message : string)
| Saved (responseId : Z) (message : string)
| Rows (key : string) (count : nat) (rows : list result_row)
| Single (response : result_row)
| Stats (stats : gmap string Z)
| Csv (text : string)
| Plain (text : string).

Record response := mkResponse {
  status : nat;
  sent : payload
}.

(** [res.json(x)] answers 200; [res.status(n).json(x)] answers [n]. *)
Definition json (x : payload) : response := {| status := 200; sent := x |}.
Definition fail (n : nat) (message : string) : response :=
  {| status := n; sent := Message false message |}.

(** ** The handlers *)

(** *** POST /api/submit-questionnaire *)

Definition insert_params (v : variant) (req : Req.t) : list jsval :=
  let b := Req.body req in
  let ipAddress :=
    match v with
    | V1 => JS.or (Req.x_forwarded_for req) (Req.remoteAddress req)
    | V2 | V3 => JS.or (Req.ip req) (Req.remoteAddress req)
    end in
  let userAgent := Req.user_agent req in
  match v with
  | V1 | V2 =>
      [Req.firstName b; Req.email b;
       JS.or (Req.question1 b) JNull; JS.or (Req.question2 b) JNull;
       JS.or (Req.question3 b) JNull; JS.or (Req.question4 b) JNull;
       JS.or (Req.question5 b) JNull;
       ipAddress; userAgent]
  | V3 =>
      [Req.firstName b; Req.email b;
       Req.question1 b; Req.question2 b; Req.question3 b;
       Req.question4 b; Req.question5 b;
       ipAddress; userAgent]
  end.

Definition submit_questionnaire (v : variant) (fault : bool) (now : string)
  (req : Req.t) (db : Db) : Db * response :=
  let b := Req.body req in
  if negb (truthy (Req.firstName b)) || negb (truthy (Req.email b)) then
    (db, fail 400 "First name and email are required")
  else
    match db_run_insert fault now (insert_params v req) db with
    | (db', DbErr) => (db', fail 500 "Failed to save response")
    | (db', DbOk lastID) => (db', json (Saved lastID "Response saved successfully"))
    end.

(** *** GET /api/responses *)

Definition listing_columns (v : variant) : list column :=
  match v with
  | V1 | V2 => listed_columns
  | V3 => all_columns
  end.

Definition get_responses (v : variant) (fault : bool) (db : Db) : response :=
  match db_call fault (List.map (select (listing_columns v)) (sql_select_all db)) with
  | DbErr => fail 500 "Failed to fetch responses"
  | DbOk rows => json (Rows "responses" (length rows) rows)
  end.

(** *** GET /api/responses/:id *)

Definition get_response (v : variant) (fault : bool) (req : Req.t) (db : Db)
  : response :=
  match db_call fault (sql_select_by_id (Req.params_id req) db) with
  | DbErr => fail 500 "Failed to fetch response"
  | DbOk None => fail 404 "Response not found"
  | DbOk (Some row) => json (Single (select all_columns row))
  end.

(** *** GET /api/stats *)

Inductive stat := total | today | uniqueEmails.

Definition stat_query (now : string) (db : Db) (key : stat) : Z :=
  match key with
  | total => sql_count_total db
  | today => sql_count_today now db
  | uniqueEmails => sql_count_unique_emails db
  end.

(** Variant 1 issues the three queries at once; each callback stores its
    count unless the query failed, and the callback that brings
    [completed] to the number of queries answers. *)
Definition stat_name (key : stat) : string :=
  match key with
  | total => "total"
  | today => "today"
  | uniqueEmails => "uniqueEmails"
  end.

Record stats_run := mkRun {
  stats : gmap string Z;
  completed : nat;
  answer : option response
}.

Definition stats_callback (key : stat) (result : db_result Z) (run : stats_run)
  : stats_run :=
  let stats' :=
    match result with
    | DbOk count => <[stat_name key := count]> (stats run)
    | DbErr => stats run
    end in
  let completed' := S (completed run) in
  {| stats := stats';
     completed := completed';
     answer := if (completed' =? 3)%nat then Some (json (Stats stats'))
               else answer run |}.

(** [order] is the order in which the driver completes the queries. *)
Definition get_stats_v1 (order : list stat) (faults : stat -> bool)
  (now : string) (db : Db) : option response :=
  answer
    (fold_left
       (fun run key =>
          stats_callback key (db_call (faults key) (stat_query now db key)) run)
       order
       {| stats := ∅; completed := 0; answer := None |}).

(** Variant 3 nests the three queries and answers 500 at the first error.
    Each query is issued from the callback of the one before, outside any
    transaction, so other requests may write in between: [db_total],
    [db_today] and [db_unique] are the table as each statement finds it,
    and [now] is the store's clock when the second one runs. *)
Definition get_stats_v3_interleaved (faults : stat -> bool) (now : string)
  (db_total db_today db_unique : Db) : response :=
  match db_call (faults total) (stat_query now db_total total) with
  | DbErr => fail 500 "Database error"
  | DbOk totalResult =>
      match db_call (faults today) (stat_query now db_today today) with
      | DbErr => fail 500 "Database error"
      | DbOk todayResult =>
          match db_call (faults uniqueEmails)
                  (stat_query now db_unique uniqueEmails) with
          | DbErr => fail 500 "Database error"
          | DbOk uniqueResult =>
              json (Stats (<["totalResponses" := totalResult]>
                           (<["todayResponses" := todayResult]>
                            (<["uniqueEmails" := uniqueResult]> ∅))))
          end
      end
  end.

(** The handler when no other request writes while it runs. *)
Definition get_stats_v3 (faults : stat -> bool) (now : string) (db : Db)
  : response :=
  get_stats_v3_interleaved faults now db db db.

(** Variant 2 answers with a breakdown by day instead:
    [SELECT COUNT( * ) as total_responses, COUNT(DISTINCT email) as
     unique_emails, DATE(submitted_at) as date, COUNT( * ) as daily_count
     FROM responses GROUP BY DATE(submitted_at) ORDER BY date DESC LIMIT 30]
    and then the number of rows of the table. *)
Record daily_row := mkDaily {
  total_responses : Z;
  unique_emails : Z;
  date : option string;
  daily_count : Z
}.

(** GROUP BY puts the rows with the same date together, NULL dates too. *)
Definition on_day (d : option string) (r : Row) : bool :=
  bool_decide (sql_date (submitted_at r) = d).

Definition group_row (rows : list Row) (d : option string) : daily_row :=
  let members := List.filter (on_day d) rows in
  {| total_responses := Z.of_nat (length members);
     unique_emails := Z.of_nat (length (remove_dups (omap email members)));
     date := d;
     daily_count := Z.of_nat (length members) |}.

Fixpoint insert_day_desc (d : option string) (sorted : list (option string))
  : list (option string) :=
  match sorted with
  | [] => [d]
  | x :: rest =>
      if sql_leb d x then x :: insert_day_desc d rest else d :: sorted
  end.

Definition sql_daily_breakdown (db : Db) : list daily_row :=
  let days :=
    remove_dups (List.map (fun r => sql_date (submitted_at r)) (responses db)) in
  List.map (group_row (responses db))
    (firstn 30 (fold_left (fun sorted d => insert_day_desc d sorted) days [])).

(** What becomes of the request: a response the other handlers can also
    send, the breakdown ([res.json] with [totalResponses] and
    [dailyBreakdown]), or no response at all because the callback threw. *)
Inductive stats_v2_result :=
| Answered (r : response)
| Breakdown (totalResponses : Z) (dailyBreakdown : list daily_row)
| Uncaught (error : string).

(** The inner callback reads [total.total] without looking at [err]: when
    the count fails, [total] is [undefined] and the read throws.  The count
    is issued from the callback of the grouped query, outside any
    transaction: [db_days] is the table the grouped query reads and
    [db_total] the table the count reads, after whatever other requests
    wrote in between. *)
Definition get_stats_v2_interleaved (fault_days fault_total : bool)
  (db_days db_total : Db) : stats_v2_result :=
  match db_call fault_days (sql_daily_breakdown db_days) with
  | DbErr => Answered (fail 500 "Failed to fetch stats")
  | DbOk rows =>
      match db_call fault_total (sql_count_total db_total) with
      | DbErr => Uncaught "TypeError"
      | DbOk total_count => Breakdown total_count rows
      end
  end.

(** The handler when no other request writes while it runs. *)
Definition get_stats_v2 (fault_days fault_total : bool) (db : Db)
  : stats_v2_result :=
  get_stats_v2_interleaved fault_days fault_total db db.

(** *** DELETE /api/responses/:id *)

Definition delete_response (v : variant) (fault : bool) (req : Req.t) (db : Db)
  : Db * response :=
  if fault then (db, fail 500 "Failed to delete response")
  else
    let '(db', changes) := sql_delete_by_id (Req.params_id req) db in
    match v with
    | V1 | V2 =>
        if (changes =? 0)%nat then (db', fail 404 "Response not found")
        else (db', json (Message true "Response deleted successfully"))
    | V3 => (db', json (Message true "Response deleted successfully"))
    end.

(** *** GET /api/search *)

(** The property that carries the rows: [results] in variant 2. *)
Definition rows_key (v : variant) : string :=
  match v with
  | V2 => "results"
  | V1 | V3 => "responses"
  end.

Definition search_rows (v : variant) (fault : bool) (query : jsval) (db : Db)
  : response :=
  let searchPattern := "%" +:+ template query +:+ "%" in
  match db_call fault (List.map (select all_columns) (sql_search searchPattern db)) with
  | DbErr => fail 500 "Search failed"
  | DbOk rows => json (Rows (rows_key v) (length rows) rows)
  end.

Definition search (v : variant) (fault : bool) (req : Req.t) (db : Db)
  : response :=
  match v with
  | V1 | V2 =>
      if negb (truthy (Req.query req)) then fail 400 "Search query is required"
      else search_rows v fault (Req.query req) db
  | V3 => search_rows v fault (JS.or (Req.query req) (JStr "")) db
  end.

(** *** GET /api/export/csv *)

Definition quoted (s : string) : string := dquote +:+ s +:+ dquote.

Definition csv_header (v : variant) : string :=
  match v with
  | V1 | V2 =>
      "ID,First Name,Email,Question 1,Question 2,Question 3,Question 4,Question 5,Submitted At,IP Address"
      +:+ newline
  | V3 =>
      "ID,First Name,Email,Question 1,Question 2,Question 3,Question 4,Question 5,Submitted At,IP Address,User Agent"
      +:+ newline
  end.

(** The template literal appended for each row. *)
Definition csv_line (v : variant) (row : result_row) : string :=
  let raw c := template (property row c) in
  let or_empty c := template (JS.or (property row c) (JStr "")) in
  raw c_id
  +:+ "," +:+ quoted (raw c_first_name)
  +:+ "," +:+ quoted (raw c_email)
  +:+ "," +:+ quoted (or_empty c_question_1)
  +:+ "," +:+ quoted (or_empty c_question_2)
  +:+ "," +:+ quoted (or_empty c_question_3)
  +:+ "," +:+ quoted (or_empty c_question_4)
  +:+ "," +:+ quoted (or_empty c_question_5)
  +:+ "," +:+ quoted (raw c_submitted_at)
  +:+ match v with
      | V1 | V2 => "," +:+ quoted (raw c_ip_address)
      | V3 => "," +:+ quoted (or_empty c_ip_address)
              +:+ "," +:+ quoted (or_empty c_user_agent)
      end
  +:+ newline.

Definition export_csv (v : variant) (fault : bool) (db : Db) : response :=
  match db_call fault (List.map (select all_columns) (sql_select_all db)) with
  | DbErr =>
      match v with
      | V1 | V2 => fail 500 "Export failed"
      | V3 => {| status := 500; sent := Plain "Export failed" |}
      end
  | DbOk rows =>
      json (Csv (fold_left (fun csv row => csv +:+ csv_line v row) rows (csv_header v)))
  end.

(** * Vocabulary of the properties

    What follows is not code of the server: it names what the properties
    below speak about. *)

(** ** Required fields *)

(** The two ways the spec names for a required field to be unusable. *)
Definition missing (v : jsval) : Prop := v = JUndefined.
Definition empty (v : jsval) : Prop := v = JStr "".

(** The spec's valid submission: both required fields are non-empty text. *)
Definition valid_submission (req : Req.t) : Prop :=
  exists fn em,
    Req.firstName (Req.body req) = JStr fn /\ fn <> "" /\
    Req.email (Req.body req) = JStr em /\ em <> "".

Definition not_null (t : option string) : bool :=
  match t with
  | Some _ => true
  | None => false
  end.

(** ** Statistics *)

(** The aggregates of the statistics operation, in the spec's words: the
    rows submitted on the day of [now], and the set of e-mail addresses. *)
Definition submitted_on_day_of (now : string) (r : Row) : Prop :=
  exists t, submitted_at r = Some t /\ substring 0 10 t = substring 0 10 now.

#[global] Instance submitted_on_day_of_dec now r :
  Decision (submitted_on_day_of now r).
Proof.
  unfold submitted_on_day_of.
  destruct (submitted_at r) as [t|].
  - destruct (decide (substring 0 10 t = substring 0 10 now)) as [E | E].
    + left. by exists t.
    + right. intros (t' & [= <-] & ?). done.
  - right. by intros (t' & [=] & _).
Defined.

Definition distinct_emails (db : Db) : gset string :=
  list_to_set (omap email (responses db)).

#[global] Instance stat_eq_dec : EqDecision stat.
Proof. solve_decision. Defined.

(** The queries of the statistics handlers, in the order they are issued. *)
Definition all_stats : list stat := [total; today; uniqueEmails].

(** The store failing on exactly one of the aggregate queries. *)
Definition only_fails (key : stat) : stat -> bool :=
  fun k => bool_decide (k = key).

(** ** Order of the results *)

(** [a] was submitted no earlier than [b], as ORDER BY compares them. *)
Definition newest_first (a b : Row) : Prop :=
  sql_leb (submitted_at b) (submitted_at a) = true.

(** ** Sequences of operations *)

(** A submission as the service sees it: the variant serving it, the
    store's clock, the request. *)
Definition submission : Type := variant * string * Req.t.

(** Submissions handled one after the other, the store not failing. *)
Definition submit_each (subs : list submission) (db : Db) : Db :=
  fold_left
    (fun db '(v, now, req) => fst (submit_questionnaire v false now req db))
    subs db.

(** The operations that write to the table. *)
Inductive operation :=
| Submit (v : variant) (fault : bool) (now : string) (req : Req.t)
| Delete (v : variant) (fault : bool) (req : Req.t).

Definition perform (op : operation) (db : Db) : Db * response :=
  match op with
  | Submit v fault now req => submit_questionnaire v fault now req db
  | Delete v fault req => delete_response v fault req db
  end.

(** A sequence of operations, with the responses in order. *)
Fixpoint run (ops : list operation) (db : Db) : Db * list response :=
  match ops with
  | [] => (db, [])
  | op :: ops' =>
      let '(db', r) := perform op db in
      let '(db'', rs) := run ops' db' in
      (db'', r :: rs)
  end.

(** The [responseId] a response carries, if it is that of a submission. *)
Definition assigned_id (r : response) : option Z :=
  match sent r with
  | Saved responseId _ => Some responseId
  | _ => None
  end.

(** What holds of the table in every state the service can reach. *)
Record table_invariant (db : Db) : Prop := {
  inv_required : forall r, In r (responses db) ->
                           first_name r <> None /\ email r <> None;
  inv_unique : NoDup (List.map id (responses db));
  inv_sequence : (max_rowid (responses db) <= sqlite_sequence db)%Z
}.

(** ** Substrings *)

(** [text] contains [q] when [q] occurs in it, and contains it
    case-insensitively when that holds once both are put in lower case. *)
Definition contains (q text : string) : Prop :=
  exists before after, text = before +:+ q +:+ after.

Fixpoint lower_string (s : string) : string :=
  match s with
  | EmptyString => EmptyString
  | String c s' => String (to_lower c) (lower_string s')
  end.

Definition contains_ci (q text : string) : Prop :=
  contains (lower_string q) (lower_string text).

(** The same, as a test. *)
Fixpoint starts_with (p s : string) : bool :=
  match p, s with
  | EmptyString, _ => true
  | String _ _, EmptyString => false
  | String a p', String b s' => Ascii.eqb a b && starts_with p' s'
  end.

Fixpoint occurs_in (q s : string) : bool :=
  starts_with q s ||
  match s with
  | EmptyString => false
  | String _ s' => occurs_in q s'
  end.


(** The WHERE clause of the search, for the query [q]. *)
Definition like_selects (q : string) (r : Row) : bool :=
  sql_like (first_name r) ("%" +:+ q +:+ "%") ||
  sql_like (email r) ("%" +:+ q +:+ "%").

(** ** The CSV document, described by its records and fields *)


(** The text of a value, NULL being the empty string. *)
Definition text_of (value : sqlval) : string :=
  match value with
  | SqlNull => ""
  | SqlInt n => decimal n
  | SqlText s => s
  end.











(** ** Sample data of the closed examples *)

Definition sample_body (fn em : jsval) : Req.Body :=
  {| Req.firstName := fn; Req.email := em;
     Req.question1 := JUndefined; Req.question2 := JUndefined;
     Req.question3 := JUndefined; Req.question4 := JUndefined;
     Req.question5 := JUndefined |}.

(** A request from 127.0.0.1 sent with curl. *)
Definition sample_request (fn em : jsval) (path_id : string) (q : jsval) : Req.t :=
  {| Req.body := sample_body fn em;
     Req.x_forwarded_for := JUndefined;
     Req.user_agent := JStr "curl";
     Req.remoteAddress := JStr "127.0.0.1";
     Req.ip := JStr "127.0.0.1";
     Req.params_id := path_id;
     Req.query := q |}.

(** A request carrying nothing but a path identifier and a query string. *)
Definition bare_request (path_id : string) (q : jsval) : Req.t :=
  sample_request JUndefined JUndefined path_id q.

(** The spec's example submission, [{firstName: "Ana", email: "a@x.com"}]. *)
Definition ana_request : Req.t :=
  sample_request (JStr "Ana") (JStr "a@x.com") "" JUndefined.

Definition ana_row : Row :=
  {| id := 1; first_name := Some "Ana"; email := Some "a@x.com";
     question_1 := None; question_2 := None; question_3 := None;
     question_4 := None; question_5 := None;
     submitted_at := Some "2025-01-02 10:00:00";
     ip_address := Some "127.0.0.1"; user_agent := Some "curl" |}.

(** The table after that submission. *)
Definition ana_db : Db := {| responses := [ana_row]; sqlite_sequence := 1 |}.



(** ** The daily breakdown *)

(** The day a row was submitted on, as the breakdown groups by it. *)
Definition day_of (r : Row) : option string := sql_date (submitted_at r).

(** The days on which the table has rows. *)
Definition distinct_days (db : Db) : list (option string) :=
  remove_dups (List.map day_of (responses db)).

(** [a] comes strictly after [b] in the order of ORDER BY. *)
Definition later_day (a b : option string) : Prop :=
  sql_leb b a = true /\ a <> b.

(** The rows the breakdown accounts for. *)
Definition sum_daily (rows : list daily_row) : Z :=
  fold_right (fun d acc => (daily_count d + acc)%Z) 0%Z rows.

(** ** Answers and callers *)

(** The five answers of a body, and of a row, in order. *)
Definition body_answers (b : Req.Body) : list jsval :=
  [Req.question1 b; Req.question2 b; Req.question3 b;
   Req.question4 b; Req.question5 b].

Definition row_answers (r : Row) : list (option string) :=
  [question_1 r; question_2 r; question_3 r; question_4 r; question_5 r].

(** A submission handled by variant 1 or 2; deletions are by any variant. *)
Definition not_a_v3_submission (op : operation) : Prop :=
  match op with
  | Submit V3 _ _ _ => False
  | _ => True
  end.

(** A value that is neither an array nor an object. *)
Definition scalar (v : jsval) : Prop :=
  match v with
  | JObject _ => False
  | _ => True
  end.

(** An operation that is not a submission with an array or an object for
    an answer. *)
Definition scalar_answers (op : operation) : Prop :=
  match op with
  | Submit _ _ _ req => Forall scalar (body_answers (Req.body req))
  | Delete _ _ _ => True
  end.

(** Where a variant reads the caller's address first. *)
Definition address_source (v : variant) (req : Req.t) : jsval :=
  match v with
  | V1 => Req.x_forwarded_for req
  | V2 | V3 => Req.ip req
  end.

(** ** What the export cannot tell apart *)

(** Two stored values that read the same through [value || '']. *)
Definition blank_alike (a b : option string) : Prop :=
  a = b \/ (a = None /\ b = Some "") \/ (a = Some "" /\ b = None).

(** Two stored values that read the same through [`${value}`]. *)
Definition null_alike (a b : option string) : Prop :=
  a = b \/ (a = None /\ b = Some "null") \/ (a = Some "null" /\ b = None).

(** Rows the CSV line of a variant cannot tell apart, column by column. *)
Definition export_alike (v : variant) (r r' : Row) : Prop :=
  id r = id r' /\
  null_alike (first_name r) (first_name r') /\
  null_alike (email r) (email r') /\
  Forall2 blank_alike (row_answers r) (row_answers r') /\
  null_alike (submitted_at r) (submitted_at r') /\
  match v with
  | V1 | V2 => null_alike (ip_address r) (ip_address r')
  | V3 => blank_alike (ip_address r) (ip_address r') /\
          blank_alike (user_agent r) (user_agent r')
  end.

(** ** Order of submission *)

(** [a] was submitted strictly before [b]. *)
Definition submitted_before (a b : Row) : Prop :=
  sql_leb (submitted_at a) (submitted_at b) = true /\
  submitted_at a <> submitted_at b.

(** A second submission, a day after the first. *)
Definition bob_row : Row :=
  {| id := 2; first_name := Some "Bob"; email := Some "b@x.com";
     question_1 := Some "yes"; question_2 := None; question_3 := None;
     question_4 := None; question_5 := None;
     submitted_at := Some "2025-01-03 09:30:00";
     ip_address := Some "127.0.0.1"; user_agent := Some "curl" |}.

Definition ana_then_bob_db : Db :=
  {| responses := [ana_row; bob_row]; sqlite_sequence := 2 |}.

(** Bob's submission with the first answer left blank. *)
Definition blank_answer_request : Req.t :=
  {| Req.body :=
       {| Req.firstName := JStr "Bob"; Req.email := JStr "b@x.com";
          Req.question1 := JStr ""; Req.question2 := JUndefined;
          Req.question3 := JUndefined; Req.question4 := JUndefined;
          Req.question5 := JUndefined |};
     Req.x_forwarded_for := JUndefined;
     Req.user_agent := JStr "curl";
     Req.remoteAddress := JStr "127.0.0.1";
     Req.ip := JStr "127.0.0.1";
     Req.params_id := "";
     Req.query := JUndefined |}.


(** * Properties *)

(** ** Submission: validation *)

Lemma missing_falsy v : missing v -> truthy v = false.
Proof. by intros ->. Qed.

Lemma empty_falsy v : empty v -> truthy v = false.
Proof. by intros ->. Qed.

Lemma submit_falsy_rejected v fault now req db :
  truthy (Req.firstName (Req.body req)) = false \/
  truthy (Req.email (Req.body req)) = false ->
  submit_questionnaire v fault now req db =
  (db, fail 400 "First name and email are required").
Proof.
  unfold submit_questionnaire.
  intros [-> | ->]; [done |].
  by rewrite orb_true_r.
Qed.

(** C5.  A submission whose [firstName] or [email] is missing or empty is
    answered 400 by every variant, whatever the store would have done, and
    the database is the one the handler was given: no row is written. *)
Theorem submit_missing_field_rejected v fault now req db :
  missing (Req.firstName (Req.body req)) \/ empty (Req.firstName (Req.body req)) \/
  missing (Req.email (Req.body req)) \/ empty (Req.email (Req.body req)) ->
  submit_questionnaire v fault now req db =
  (db, fail 400 "First name and email are required").
Proof.
  intros H. apply submit_falsy_rejected.
  destruct H as [H | [H | [H | H]]];
    eauto using missing_falsy, empty_falsy.
Qed.

Example ana_submitted :
  submit_questionnaire V1 false "2025-01-02 10:00:00" ana_request empty_db =
  (ana_db, json (Saved 1 "Response saved successfully")).
Proof. reflexivity. Qed.

(** The walk of the spec's last example: look the row up, delete it, look
    it up again. *)
Example ana_looked_up_deleted_gone :
  get_response V1 false (bare_request "1" JUndefined) ana_db =
    json (Single (select all_columns ana_row)) /\
  delete_response V1 false (bare_request "1" JUndefined) ana_db =
    ({| responses := []; sqlite_sequence := 1 |},
     json (Message true "Response deleted successfully")) /\
  get_response V1 false (bare_request "1" JUndefined)
    {| responses := []; sqlite_sequence := 1 |} =
    fail 404 "Response not found".
Proof. repeat split. Qed.

Lemma submit_missing_field_rejected_witness :
  submit_questionnaire V3 false "2025-01-02 10:00:00"
    (sample_request JUndefined (JStr "a@x.com") "" JUndefined) ana_db =
  (ana_db, fail 400 "First name and email are required").
Proof.
  apply (submit_missing_field_rejected V3 false "2025-01-02 10:00:00"
           (sample_request JUndefined (JStr "a@x.com") "" JUndefined) ana_db).
  left. reflexivity.
Defined.

(** ** Search: the required query *)

Lemma like_any_run p text :
  like (String "%" p) text =
  like p text ||
  match text with
  | EmptyString => false
  | String _ text' => like (String "%" p) text'
  end.
Proof. by destruct text. Qed.

Lemma like_percent text : like "%" text = true.
Proof.
  induction text as [|c text IH]; [done |].
  rewrite like_any_run, IH. apply orb_true_r.
Qed.

Lemma like_percent_percent text : like "%%" text = true.
Proof. by rewrite like_any_run, like_percent. Qed.

Lemma sql_like_everything t : sql_like t "%%" = not_null t.
Proof. destruct t; [apply like_percent_percent | done]. Qed.

(** C4, as the spec states it, fails on variant 3: with no query
    parameter it answers 200 and returns the row of the table. *)
Lemma search_v3_without_query_succeeds :
  status (search V3 false (bare_request "" JUndefined) ana_db) = 200%nat /\
  sent (search V3 false (bare_request "" JUndefined) ana_db) =
  Rows "responses" 1 [select all_columns ana_row].
Proof. split; reflexivity. Qed.

(** C4, amended.  When the query parameter is absent or empty, variants 1
    and 2 answer 400 without consulting the store (the answer is the same
    for every database and fault); variant 3 searches with the empty
    string instead, which selects every row whose [first_name] or [email]
    is not NULL. *)
Theorem search_absent_query v fault req db :
  missing (Req.query req) \/ empty (Req.query req) ->
  match v with
  | V1 | V2 => search v fault req db = fail 400 "Search query is required"
  | V3 =>
      search V3 fault req db =
      match db_call fault
              (List.map (select all_columns)
                 (order_by_submitted_at_desc
                    (List.filter
                       (fun r => not_null (first_name r) || not_null (email r))
                       (responses db)))) with
      | DbErr => fail 500 "Search failed"
      | DbOk rows => json (Rows "responses" (length rows) rows)
      end
  end.
Proof.
  intros H.
  assert (Hq : truthy (Req.query req) = false)
    by (destruct H; eauto using missing_falsy, empty_falsy).
  destruct v; unfold search; rewrite ?Hq; try done.
  unfold search_rows, JS.or. rewrite Hq. cbn [template].
  unfold sql_search.
  change ("%" +:+ "" +:+ "%") with "%%".
  by rewrite (filter_ext _ (fun r => not_null (first_name r) || not_null (email r)))
    by (intros r; by rewrite !sql_like_everything).
Qed.

Lemma search_absent_query_witness :
  search V1 false (bare_request "" (JStr "")) ana_db =
  fail 400 "Search query is required".
Proof.
  apply (search_absent_query V1 false (bare_request "" (JStr "")) ana_db).
  right. reflexivity.
Defined.

(** ** Deletion *)

Lemma filter_all_length {A} (f : A -> bool) (l : list A) :
  (length l - length (List.filter f l) = 0)%nat -> List.filter f l = l.
Proof.
  induction l as [|x l IH]; [done |]. cbn.
  pose proof (filter_length_le f l).
  destruct (f x); cbn; intros Hlen; [f_equal; apply IH; lia | lia].
Qed.

Lemma filter_none_removed {A} (f : A -> bool) (l : list A) :
  (forall x, In x l -> f x = true) -> List.filter f l = l.
Proof.
  induction l as [|x l IH]; [done |]. cbn. intros H.
  rewrite (H x) by auto. f_equal. auto.
Qed.

Lemma find_filter_negb {A} (f : A -> bool) (l : list A) :
  List.find f (List.filter (fun x => negb (f x)) l) = None.
Proof.
  induction l as [|x l IH]; [done |]. cbn.
  destruct (f x) eqn:E; cbn; [done |]. by rewrite E.
Qed.

Lemma filter_found_shrinks {A} (f : A -> bool) (l : list A) x :
  List.find f l = Some x ->
  (length l - length (List.filter (fun y => negb (f y)) l) =? 0)%nat = false.
Proof.
  intros [Hin Hfx]%find_some. apply Nat.eqb_neq.
  pose proof (filter_length f l) as Hlen.
  assert (0 < length (List.filter f l))%nat; [| lia].
  assert (In x (List.filter f l)) as Hx by (apply filter_In; auto).
  destruct (List.filter f l); [done | cbn; lia].
Qed.

(** Variants 1 and 2 do what the spec says of deletion: 404 and an
    unchanged table when no row has the identifier. *)
Lemma delete_absent_not_found v req db :
  v <> V3 ->
  sql_select_by_id (Req.params_id req) db = None ->
  delete_response v false req db = (db, fail 404 "Response not found").
Proof.
  intros Hv Hnone. unfold delete_response, sql_delete_by_id.
  pose proof (find_none _ _ Hnone) as Hall.
  rewrite (filter_none_removed (fun r => negb (id_matches (Req.params_id req) r)))
    by (intros x Hx; by rewrite (Hall x Hx)).
  rewrite Nat.sub_diag. destruct db. by destruct v.
Qed.

(** ... success and the row gone when one has it, and 404 when the same
    identifier is deleted again. *)
Lemma delete_present_then_absent v req db row :
  v <> V3 ->
  sql_select_by_id (Req.params_id req) db = Some row ->
  exists db',
    delete_response v false req db =
      (db', json (Message true "Response deleted successfully")) /\
    sql_select_by_id (Req.params_id req) db' = None /\
    delete_response v false req db' = (db', fail 404 "Response not found").
Proof.
  intros Hv Hsome.
  exists {| responses := List.filter (fun r => negb (id_matches (Req.params_id req) r))
                           (responses db);
            sqlite_sequence := sqlite_sequence db |}.
  assert (Hgone : sql_select_by_id (Req.params_id req)
            {| responses := List.filter (fun r => negb (id_matches (Req.params_id req) r))
                              (responses db);
               sqlite_sequence := sqlite_sequence db |} = None)
    by apply find_filter_negb.
  split; [| split; [done | by apply delete_absent_not_found]].
  unfold delete_response, sql_delete_by_id.
  rewrite (filter_found_shrinks _ _ _ Hsome). by destruct v.
Qed.

(** C2.  Variant 3 never looks at [this.changes]: deleting identifier 7
    from an empty table is answered 200 with the success message, where
    the claim (and variants 1 and 2) answer 404; and deleting identifier 1
    twice is answered with success both times. *)
Theorem delete_v3_absent_reports_success :
  sql_select_by_id "7" empty_db = None /\
  delete_response V3 false (bare_request "7" JUndefined) empty_db =
    (empty_db, json (Message true "Response deleted successfully")) /\
  delete_response V1 false (bare_request "7" JUndefined) empty_db =
    (empty_db, fail 404 "Response not found") /\
  delete_response V3 false (bare_request "1" JUndefined) ana_db =
    ({| responses := []; sqlite_sequence := 1 |},
     json (Message true "Response deleted successfully")) /\
  delete_response V3 false (bare_request "1" JUndefined)
    {| responses := []; sqlite_sequence := 1 |} =
    ({| responses := []; sqlite_sequence := 1 |},
     json (Message true "Response deleted successfully")).
Proof. repeat split. Qed.

(** ** Statistics *)

Section Stats.

Variables (faults : stat -> bool) (now : string) (db : Db).

Let callback (run : stats_run) (key : stat) : stats_run :=
  stats_callback key (db_call (faults key) (stat_query now db key)) run.

Lemma stat_name_inj k k' : stat_name k = stat_name k' -> k = k'.
Proof. by destruct k, k'. Qed.

Lemma stats_fold_completed order run :
  completed (fold_left callback order run) = (completed run + length order)%nat.
Proof.
  revert run. induction order as [|k order IH]; intros run; cbn; [lia |].
  rewrite IH. cbn. lia.
Qed.

(** After the callbacks of [order] have run, a query that completed without
    error has its count under its name, and nothing else was written. *)
Lemma stats_fold_lookup order run k :
  stats (fold_left callback order run) !! stat_name k =
  if bool_decide (k ∈ order) && negb (faults k)
  then Some (stat_query now db k)
  else stats run !! stat_name k.
Proof.
  revert run. induction order as [|a order IH]; intros run; [done |].
  cbn [fold_left]. rewrite IH.
  destruct (decide (k ∈ order)) as [Hin | Hout].
  - rewrite !bool_decide_eq_true_2 by (try right; done).
    destruct (faults k) eqn:Hk; cbn [andb negb]; [| done].
    unfold callback, stats_callback, db_call. cbn [stats].
    destruct (faults a) eqn:Ha; [done |].
    destruct (decide (a = k)) as [-> | Hne]; [congruence |].
    rewrite lookup_insert_ne; [done | by intros ?%stat_name_inj].
  - rewrite (bool_decide_eq_false_2 (k ∈ order)) by done. cbn [andb].
    unfold callback, stats_callback, db_call. cbn [stats].
    destruct (decide (a = k)) as [-> | Hne].
    + rewrite bool_decide_eq_true_2 by left.
      destruct (faults k); cbn [andb negb]; [done |].
      by rewrite lookup_insert_eq.
    + rewrite bool_decide_eq_false_2
        by (intros [? | ?]%elem_of_cons; congruence).
      cbn [andb]. destruct (faults a); [done |].
      rewrite lookup_insert_ne; [done | by intros ?%stat_name_inj].
Qed.

(** The callback that completes the third query answers, with the object
    as it stands then. *)
Lemma stats_fold_answer order run :
  order <> [] -> (completed run + length order = 3)%nat ->
  answer (fold_left callback order run) =
  Some (json (Stats (stats (fold_left callback order run)))).
Proof.
  destruct order as [|k order _] using rev_ind; [done |].
  intros _ Hlen. rewrite length_app in Hlen. cbn in Hlen.
  rewrite fold_left_app. cbn [fold_left].
  unfold callback at 1 3. unfold stats_callback. cbn [answer stats].
  rewrite stats_fold_completed.
  by replace (S (completed run + length order)) with 3%nat by lia.
Qed.

End Stats.

Lemma stats_fold_other faults now db order run i :
  (forall k, i <> stat_name k) ->
  stats (fold_left
           (fun run key =>
              stats_callback key (db_call (faults key) (stat_query now db key)) run)
           order run) !! i = stats run !! i.
Proof.
  intros Hi. revert run.
  induction order as [|a order IH]; intros run; [done |].
  cbn [fold_left]. rewrite IH. unfold stats_callback, db_call. cbn [stats].
  destruct (faults a); [done |]. by rewrite lookup_insert_ne.
Qed.

(** Variant 1 always answers 200; its [stats] object holds the aggregates
    whose query succeeded and nothing else. *)
Lemma get_stats_v1_answer faults now db order :
  order ≡ₚ all_stats ->
  exists m,
    get_stats_v1 order faults now db = Some (json (Stats m)) /\
    (forall k, m !! stat_name k =
               if faults k then None else Some (stat_query now db k)) /\
    (forall i, (forall k, i <> stat_name k) -> m !! i = None).
Proof.
  intros Hperm. unfold get_stats_v1.
  eexists. split; [| split].
  - apply stats_fold_answer.
    + intros ->. by apply Permutation_nil_l in Hperm.
    + by rewrite (Permutation_length Hperm).
  - intros k. rewrite stats_fold_lookup.
    rewrite bool_decide_eq_true_2
      by (rewrite Hperm; destruct k; set_solver).
    by destruct (faults k).
  - intros i Hi. by rewrite stats_fold_other.
Qed.

Lemma get_stats_v3_fails faults now db k :
  faults k = true -> get_stats_v3 faults now db = fail 500 "Database error".
Proof.
  intros Hk. unfold get_stats_v3, get_stats_v3_interleaved, db_call.
  destruct (faults total) eqn:H1; [done |].
  destruct (faults today) eqn:H2; [done |].
  destruct (faults uniqueEmails) eqn:H3; [done |].
  destruct k; congruence.
Qed.

(** The three queries compute the aggregates the spec names. *)
Lemma count_today_spec now db :
  sql_count_today now db =
  Z.of_nat (length (filter (submitted_on_day_of now) (responses db))).
Proof.
  unfold sql_count_today. do 2 f_equal.
  induction (responses db) as [|r rows IH]; [done |].
  cbn [List.filter]. rewrite filter_cons, <- IH.
  unfold sql_date, same_date, option_map.
  destruct (decide (submitted_on_day_of now r)) as [(t & Ht & E) | Hno].
  - rewrite Ht. by rewrite (proj2 (String.eqb_eq _ _) E).
  - destruct (submitted_at r) as [t|] eqn:Ht; [| done].
    destruct (String.eqb_spec (substring 0 10 t) (substring 0 10 now)) as [E | E];
      [| done].
    destruct Hno. by exists t.
Qed.

Lemma count_unique_emails_spec db :
  sql_count_unique_emails db = Z.of_nat (size (distinct_emails db)).
Proof.
  unfold sql_count_unique_emails, distinct_emails. f_equal.
  rewrite <- (size_list_to_set (C := gset string) (remove_dups _))
    by apply NoDup_remove_dups.
  f_equal. apply set_eq. intros x.
  by rewrite !elem_of_list_to_set, elem_of_remove_dups.
Qed.

(** C1, as the spec states it, fails on variant 1: when the [today] query
    fails the handler still answers 200, with the other two aggregates. *)
Lemma stats_v1_partial_failure_succeeds :
  get_stats_v1 all_stats (only_fails today) "2025-01-02 12:00:00" ana_db =
  Some (json (Stats (<["total" := 1%Z]> (<["uniqueEmails" := 1%Z]> ∅)))).
Proof. reflexivity. Qed.

(** C1, amended.  Variant 3 fails the whole response (500) as soon as one
    aggregate query fails.  Variant 1 answers 200 in every case, in
    whatever order the queries complete, and its [stats] object holds
    exactly the aggregates whose query succeeded.  When no query fails,
    both variants answer 200 with the three aggregates: the number of
    rows, the number of rows submitted on the current date, and the number
    of distinct e-mail addresses. *)
Theorem stats_failure_policy faults now db order :
  order ≡ₚ all_stats ->
  ((exists k, faults k = true) ->
   get_stats_v3 faults now db = fail 500 "Database error") /\
  (exists m,
     get_stats_v1 order faults now db = Some (json (Stats m)) /\
     (forall k, m !! stat_name k =
                if faults k then None else Some (stat_query now db k)) /\
     (forall i, (forall k, i <> stat_name k) -> m !! i = None)) /\
  ((forall k, faults k = false) ->
   let n_total := Z.of_nat (length (responses db)) in
   let n_today :=
     Z.of_nat (length (filter (submitted_on_day_of now) (responses db))) in
   let n_unique := Z.of_nat (size (distinct_emails db)) in
   get_stats_v3 faults now db =
     json (Stats (<["totalResponses" := n_total]>
                  (<["todayResponses" := n_today]>
                   (<["uniqueEmails" := n_unique]> ∅)))) /\
   get_stats_v1 order faults now db =
     Some (json (Stats (<["total" := n_total]>
                        (<["today" := n_today]>
                         (<["uniqueEmails" := n_unique]> ∅)))))).
Proof.
  intros Hperm. split; [| split].
  - intros [k Hk]. by apply (get_stats_v3_fails faults now db k).
  - by apply get_stats_v1_answer.
  - intros Hok n_total n_today n_unique. split.
    + unfold get_stats_v3, get_stats_v3_interleaved, db_call.
      rewrite !Hok. cbn [stat_query].
      by rewrite count_today_spec, count_unique_emails_spec.
    + destruct (get_stats_v1_answer faults now db order Hperm)
        as (m & -> & Hm & Hother).
      do 3 f_equal. apply map_eq. intros i.
      pose proof (Hm total) as Ht. pose proof (Hm today) as Hd.
      pose proof (Hm uniqueEmails) as Hu.
      rewrite Hok in Ht, Hd, Hu. cbn [stat_name stat_query] in Ht, Hd, Hu.
      rewrite count_today_spec in Hd. rewrite count_unique_emails_spec in Hu.
      destruct (decide (i = "total")) as [-> | N1];
        [by rewrite Ht, lookup_insert_eq |].
      destruct (decide (i = "today")) as [-> | N2];
        [by rewrite Hd, lookup_insert_ne, lookup_insert_eq by done |].
      destruct (decide (i = "uniqueEmails")) as [-> | N3];
        [by rewrite Hu, 2!lookup_insert_ne, lookup_insert_eq by done |].
      rewrite Hother by (intros []; done).
      by rewrite 3!lookup_insert_ne, lookup_empty by done.
Qed.

Lemma stats_failure_policy_witness :
  get_stats_v3 (only_fails today) "2025-01-02 12:00:00" ana_db =
  fail 500 "Database error".
Proof.
  apply (stats_failure_policy (only_fails today) "2025-01-02 12:00:00" ana_db
           all_stats).
  - reflexivity.
  - by exists today.
Defined.

(** ** Submission and lookup *)

Lemma rowid_of_decimal n : rowid_of_text (decimal n) = Some n.
Proof.
  unfold rowid_of_text, decimal.
  rewrite NilZero.isi.
  - cbn. by rewrite DecimalZ.of_to.
  - destruct n; cbn; try done.
    intros [= H]. by apply Unsigned.to_uint_nonnil in H.
  - destruct n; cbn; try done.
    intros [= H]. by apply Unsigned.to_uint_nonnil in H.
Qed.

Lemma max_rowid_bound rows r : In r rows -> (id r <= max_rowid rows)%Z.
Proof.
  induction rows as [|x rows IH]; [done |].
  change (max_rowid (x :: rows)) with (Z.max (id x) (max_rowid rows)).
  intros [-> | Hin]; [lia |]. specialize (IH Hin). lia.
Qed.

Lemma find_app_none {A} (f : A -> bool) l l' :
  List.find f l = None -> List.find f (l ++ l') = List.find f l'.
Proof.
  induction l as [|x l IH]; [done |]. cbn.
  destruct (f x); [done | auto].
Qed.

Lemma find_no_match {A} (f : A -> bool) l :
  (forall x, In x l -> f x = false) -> List.find f l = None.
Proof.
  induction l as [|x l IH]; [done |]. cbn. intros H.
  rewrite (H x) by auto. auto.
Qed.

Lemma valid_name_truthy s : s <> "" -> truthy (JStr s) = true.
Proof. cbn. by destruct (String.eqb_spec s ""). Qed.

(** What a successful INSERT does to the table. *)
Lemma sql_insert_ok now params db fn em q1 q2 q3 q4 q5 ip ua :
  List.map (fun p => text_affinity (bind p)) params =
    [Some fn; Some em; q1; q2; q3; q4; q5; ip; ua] ->
  (high_water db < MAX_ROWID)%Z ->
  sql_insert now params db =
  ({| responses := responses db ++
        [{| id := (high_water db + 1)%Z; first_name := Some fn; email := Some em;
            question_1 := q1; question_2 := q2; question_3 := q3;
            question_4 := q4; question_5 := q5; submitted_at := Some now;
            ip_address := ip; user_agent := ua |}];
      sqlite_sequence := (high_water db + 1)%Z |},
   DbOk (high_water db + 1)%Z).
Proof.
  intros Hp Hroom. unfold sql_insert. rewrite Hp.
  by destruct (Z.leb_spec MAX_ROWID (high_water db)); [lia |].
Qed.

Lemma insert_params_shape v req fn em :
  Req.firstName (Req.body req) = JStr fn ->
  Req.email (Req.body req) = JStr em ->
  exists q1 q2 q3 q4 q5 ip ua,
    List.map (fun p => text_affinity (bind p)) (insert_params v req) =
    [Some fn; Some em; q1; q2; q3; q4; q5; ip; ua].
Proof.
  intros Hf He. unfold insert_params. rewrite Hf, He.
  destruct v; cbn [List.map bind text_affinity]; by repeat eexists.
Qed.

(** A valid submission is stored, whichever variant handles it. *)
Lemma submit_valid_stored v now req db fn em :
  Req.firstName (Req.body req) = JStr fn -> fn <> "" ->
  Req.email (Req.body req) = JStr em -> em <> "" ->
  (high_water db < MAX_ROWID)%Z ->
  exists row,
    submit_questionnaire v false now req db =
      ({| responses := responses db ++ [row];
          sqlite_sequence := (high_water db + 1)%Z |},
       json (Saved (high_water db + 1)%Z "Response saved successfully")) /\
    id row = (high_water db + 1)%Z /\
    first_name row = Some fn /\ email row = Some em /\
    submitted_at row = Some now.
Proof.
  intros Hf Hfn He Hem Hroom.
  destruct (insert_params_shape v req fn em Hf He)
    as (q1 & q2 & q3 & q4 & q5 & ip & ua & Hp).
  eexists. split.
  - unfold submit_questionnaire, db_run_insert.
    rewrite Hf, He, !valid_name_truthy by done. cbn [negb orb].
    by rewrite (sql_insert_ok _ _ _ _ _ _ _ _ _ _ _ _ Hp Hroom).
  - done.
Qed.

Lemma select_by_id_appended param db row seq :
  rowid_of_text param = Some (id row) ->
  (max_rowid (responses db) < id row)%Z ->
  sql_select_by_id param {| responses := responses db ++ [row];
                            sqlite_sequence := seq |} = Some row.
Proof.
  intros Hp Hfresh. unfold sql_select_by_id. cbn [responses].
  rewrite find_app_none.
  - cbn. unfold id_matches. by rewrite Hp, Z.eqb_refl.
  - apply find_no_match. intros x Hx%max_rowid_bound.
    unfold id_matches. rewrite Hp. apply Z.eqb_neq. lia.
Qed.

(** Rowids up to 2^53 pass through a JavaScript number unchanged. *)
Lemma js_number_safe n : (Z.abs n <= 2 ^ 53)%Z -> js_number n = n.
Proof.
  intros H. unfold js_number.
  by destruct (Z.leb_spec (Z.abs n) (2 ^ 53)); [| lia].
Qed.

Lemma safe_below_max_rowid : (MAX_SAFE_INTEGER < MAX_ROWID)%Z.
Proof. reflexivity. Qed.

Lemma high_water_nonneg db : (0 <= high_water db)%Z.
Proof.
  unfold high_water.
  assert (0 <= max_rowid (responses db))%Z; [| lia].
  induction (responses db) as [|x rows IH]; [done |].
  change (max_rowid (x :: rows)) with (Z.max (id x) (max_rowid rows)). lia.
Qed.

Lemma next_rowid_safe db :
  (high_water db <= MAX_SAFE_INTEGER)%Z ->
  js_number (high_water db + 1) = (high_water db + 1)%Z.
Proof.
  intros H. pose proof (high_water_nonneg db).
  apply js_number_safe. unfold MAX_SAFE_INTEGER in H. lia.
Qed.






(** ** Listing: ORDER BY submitted_at DESC *)

Lemma ascii_compare_lt_trans a b c :
  Ascii.compare a b = Lt -> Ascii.compare b c = Lt -> Ascii.compare a c = Lt.
Proof.
  unfold Ascii.compare. rewrite !N.compare_lt_iff. lia.
Qed.

Lemma string_leb_trans a b c :
  String.leb a b = true -> String.leb b c = true -> String.leb a c = true.
Proof.
  unfold String.leb. revert b c.
  induction a as [|x a IH]; intros [|y b] [|z c]; cbn; try done.
  destruct (Ascii.compare x y) eqn:Hxy; try done;
    destruct (Ascii.compare y z) eqn:Hyz; try done.
  - apply Ascii.compare_eq_iff in Hxy as ->.
    apply Ascii.compare_eq_iff in Hyz as ->.
    assert (Ascii.compare z z = Eq) as ->
      by (unfold Ascii.compare; apply N.compare_refl).
    apply IH.
  - apply Ascii.compare_eq_iff in Hxy as ->. by rewrite Hyz.
  - apply Ascii.compare_eq_iff in Hyz as ->. by rewrite Hxy.
  - by rewrite (ascii_compare_lt_trans x y z).
Qed.

Lemma sql_leb_trans a b c :
  sql_leb a b = true -> sql_leb b c = true -> sql_leb a c = true.
Proof.
  destruct a, b, c; cbn; try done. apply string_leb_trans.
Qed.

Lemma sql_leb_total a b : sql_leb a b = true \/ sql_leb b a = true.
Proof.
  destruct a, b; cbn; auto. apply String.leb_total.
Qed.

Lemma insert_desc_perm r l : Permutation (insert_desc r l) (r :: l).
Proof.
  induction l as [|x l IH]; [done |]. cbn.
  destruct (sql_leb _ _); [| done].
  rewrite IH. apply perm_swap.
Qed.

Lemma insert_desc_sorted r l :
  StronglySorted newest_first l -> StronglySorted newest_first (insert_desc r l).
Proof.
  induction 1 as [|x l Hl IH Hx]; cbn.
  - repeat constructor.
  - destruct (sql_leb (submitted_at r) (submitted_at x)) eqn:Hrx.
    + constructor; [done |].
      apply Forall_forall. intros y Hy.
      rewrite insert_desc_perm in Hy.
      apply elem_of_cons in Hy as [-> | Hy]; [done |].
      by apply (proj1 (Forall_forall _ _) Hx).
    + assert (newest_first r x) as Hnew
        by (destruct (sql_leb_total (submitted_at r) (submitted_at x)); congruence).
      constructor; [by constructor |].
      constructor; [done |].
      eapply Forall_impl; [exact Hx |].
      intros y Hy. unfold newest_first in *. by eapply sql_leb_trans.
Qed.

Lemma order_by_fold_perm rows acc :
  Permutation (fold_left (fun sorted r => insert_desc r sorted) rows acc)
              (acc ++ rows).
Proof.
  revert acc. induction rows as [|r rows IH]; intros acc; cbn.
  - by rewrite app_nil_r.
  - rewrite IH, insert_desc_perm. apply Permutation_middle.
Qed.

Lemma order_by_perm rows : Permutation (order_by_submitted_at_desc rows) rows.
Proof. apply (order_by_fold_perm rows []). Qed.

Lemma order_by_sorted rows :
  StronglySorted newest_first (order_by_submitted_at_desc rows).
Proof.
  unfold order_by_submitted_at_desc.
  assert (Hacc : StronglySorted newest_first []) by constructor.
  revert Hacc. generalize (@nil Row).
  induction rows as [|r rows IH]; intros acc Hacc; [done |].
  cbn. by apply IH, insert_desc_sorted.
Qed.

Lemma max_rowid_nonneg rows : (0 <= max_rowid rows)%Z.
Proof.
  induction rows as [|x rows IH]; [done |].
  change (max_rowid (x :: rows)) with (Z.max (id x) (max_rowid rows)). lia.
Qed.

Lemma max_rowid_app rows rows' :
  max_rowid (rows ++ rows') = Z.max (max_rowid rows) (max_rowid rows').
Proof.
  induction rows as [|x rows IH].
  - cbn [app]. change (max_rowid []) with 0%Z.
    pose proof (max_rowid_nonneg rows'). lia.
  - change (max_rowid ((x :: rows) ++ rows'))
      with (Z.max (id x) (max_rowid (rows ++ rows'))).
    change (max_rowid (x :: rows)) with (Z.max (id x) (max_rowid rows)).
    rewrite IH. lia.
Qed.

Lemma submit_each_grows subs db :
  Forall (fun s => valid_submission (snd s)) subs ->
  (high_water db + Z.of_nat (length subs) < MAX_ROWID)%Z ->
  length (responses (submit_each subs db)) =
    (length (responses db) + length subs)%nat /\
  high_water (submit_each subs db) = (high_water db + Z.of_nat (length subs))%Z.
Proof.
  intros Hvalid. revert db.
  induction Hvalid as [|[[v now] req] subs (fn & em & Hf & Hfn & He & Hem) _ IH];
    intros db Hroom.
  - cbn. split; lia.
  - cbn [length] in Hroom.
    destruct (submit_valid_stored v now req db fn em Hf Hfn He Hem)
      as (row & Hsub & Hid & _); [lia |].
    change (submit_each ((v, now, req) :: subs) db)
      with (submit_each subs (fst (submit_questionnaire v false now req db))).
    rewrite Hsub. cbn [fst].
    set (db' := {| responses := responses db ++ [row];
                   sqlite_sequence := (high_water db + 1)%Z |}).
    assert (Hhw : high_water db' = (high_water db + 1)%Z).
    { unfold high_water at 1. cbn [responses sqlite_sequence db'].
      rewrite max_rowid_app.
      change (max_rowid [row]) with (Z.max (id row) 0). rewrite Hid.
      pose proof (max_rowid_nonneg (responses db)).
      unfold high_water. lia. }
    destruct (IH db') as [Hlen Hhigh]; [lia |].
    rewrite Hlen, Hhigh, Hhw. cbn [responses db' length].
    rewrite length_app. cbn [length]. split; lia.
Qed.

(** C8.  For every table the listing answers 200 with every row once
    (the rows it returns are a permutation of the table, projected on the
    listed columns), newest first, and a [count] equal to the number of
    rows; there is no parameter by which to page or filter.  After [N]
    valid submissions to an empty table it returns [N] rows. *)
Theorem listing_returns_all_newest_first v db :
  (exists rows,
     get_responses v false db =
       json (Rows "responses" (length (responses db))
               (List.map (select (listing_columns v)) rows)) /\
     Permutation rows (responses db) /\
     StronglySorted newest_first rows) /\
  (forall subs : list submission,
     Forall (fun s => valid_submission (snd s)) subs ->
     (Z.of_nat (length subs) < MAX_ROWID)%Z ->
     exists listed,
       get_responses v false (submit_each subs empty_db) =
         json (Rows "responses" (length subs) listed) /\
       length listed = length subs).
Proof.
  assert (Hlist : forall table,
    get_responses v false table =
      json (Rows "responses" (length (responses table))
              (List.map (select (listing_columns v)) (sql_select_all table)))).
  { intros table. unfold get_responses, db_call.
    rewrite length_map. unfold sql_select_all at 1.
    by rewrite (Permutation_length (order_by_perm (responses table))). }
  split.
  - exists (sql_select_all db).
    split; [apply Hlist |]. split; [apply order_by_perm | apply order_by_sorted].
  - intros subs Hvalid Hroom.
    destruct (submit_each_grows subs empty_db Hvalid) as [Hlen _];
      [by cbn |].
    eexists. split.
    + rewrite Hlist, Hlen. reflexivity.
    + rewrite length_map. unfold sql_select_all.
      by rewrite (Permutation_length (order_by_perm _)), Hlen.
Qed.

Lemma listing_returns_all_newest_first_witness :
  exists listed,
    get_responses V1 false
      (submit_each [(V1, "2025-01-02 10:00:00", ana_request);
                    (V3, "2025-01-03 09:30:00", ana_request)] empty_db) =
      json (Rows "responses" 2 listed) /\
    length listed = 2%nat.
Proof.
  apply (proj2 (listing_returns_all_newest_first V1 empty_db)
           [(V1, "2025-01-02 10:00:00", ana_request);
            (V3, "2025-01-03 09:30:00", ana_request)]).
  - repeat constructor; by exists "Ana", "a@x.com".
  - reflexivity.
Defined.

(** ** Invariants of the table *)

Lemma sql_insert_cases now params db :
  sql_insert now params db = (db, DbErr) \/
  exists row,
    sql_insert now params db =
      ({| responses := responses db ++ [row];
          sqlite_sequence := (high_water db + 1)%Z |},
       DbOk (high_water db + 1)%Z) /\
    id row = (high_water db + 1)%Z /\
    first_name row <> None /\ email row <> None /\
    submitted_at row = Some now.
Proof.
  unfold sql_insert.
  destruct (List.map _ params)
    as [|[fn|] [|[em|] [|q1 [|q2 [|q3 [|q4 [|q5 [|ip [|ua [|]]]]]]]]]];
    try (by left).
  destruct (MAX_ROWID <=? high_water db)%Z; [by left |].
  right. eexists. split; [reflexivity |]. by cbn.
Qed.

(** A submission either leaves the database as it is and assigns nothing,
    or appends one row under a fresh identifier, which it returns. *)
Lemma submit_cases v fault now req db :
  (fst (submit_questionnaire v fault now req db) = db /\
   assigned_id (snd (submit_questionnaire v fault now req db)) = None) \/
  exists row,
    submit_questionnaire v fault now req db =
      ({| responses := responses db ++ [row];
          sqlite_sequence := (high_water db + 1)%Z |},
       json (Saved (high_water db + 1)%Z "Response saved successfully")) /\
    id row = (high_water db + 1)%Z /\
    first_name row <> None /\ email row <> None /\
    submitted_at row = Some now.
Proof.
  unfold submit_questionnaire, db_run_insert.
  destruct (negb _ || negb _); [by left |].
  destruct fault; [by left |].
  destruct (sql_insert_cases now (insert_params v req) db)
    as [-> | (row & -> & H)]; [by left |].
  right. by exists row.
Qed.

(** A deletion keeps a sublist of the rows and the sequence, and assigns
    nothing. *)
Lemma delete_cases v fault req db :
  exists kept,
    fst (delete_response v fault req db) =
      {| responses := kept; sqlite_sequence := sqlite_sequence db |} /\
    sublist kept (responses db) /\
    assigned_id (snd (delete_response v fault req db)) = None.
Proof.
  unfold delete_response, sql_delete_by_id.
  destruct fault.
  - exists (responses db). by destruct db.
  - exists (List.filter (fun r => negb (id_matches (Req.params_id req) r))
              (responses db)).
    assert (Hsub : forall (f : Row -> bool) l, sublist (List.filter f l) l).
    { intros f l. induction l as [|x l IH]; [constructor |].
      cbn. destruct (f x); by constructor. }
    destruct v; repeat split; try apply Hsub;
      by destruct (_ =? 0)%nat.
Qed.

Lemma max_rowid_sublist kept rows :
  sublist kept rows -> (max_rowid kept <= max_rowid rows)%Z.
Proof.
  induction 1 as [|x k l _ IH|x k l _ IH]; [done | |].
  - change (max_rowid (x :: k)) with (Z.max (id x) (max_rowid k)).
    change (max_rowid (x :: l)) with (Z.max (id x) (max_rowid l)). lia.
  - change (max_rowid (x :: l)) with (Z.max (id x) (max_rowid l)). lia.
Qed.

Lemma table_invariant_empty : table_invariant empty_db.
Proof. split; cbn; [done | constructor | done]. Qed.

(** One operation: the invariant is kept, the sequence does not decrease,
    an identifier that is assigned is above the old sequence and becomes
    the new one, and every row of the new table is a row of the old one or
    has an identifier above the old sequence. *)
Lemma perform_step op db :
  table_invariant db ->
  table_invariant (fst (perform op db)) /\
  (sqlite_sequence db <= sqlite_sequence (fst (perform op db)))%Z /\
  (forall rid, assigned_id (snd (perform op db)) = Some rid ->
               (sqlite_sequence db < rid)%Z /\
               rid = sqlite_sequence (fst (perform op db))) /\
  (forall r, In r (responses (fst (perform op db))) ->
             In r (responses db) \/ (sqlite_sequence db < id r)%Z).
Proof.
  intros Hinv. pose proof Hinv as [Hreq Huniq Hseq].
  assert (Hhw : high_water db = sqlite_sequence db)
    by (unfold high_water; lia).
  destruct op as [v fault now req | v fault req]; cbn [perform].
  - destruct (submit_cases v fault now req db)
      as [[-> Hnone] | (row & -> & Hid & Hfn & Hem & _)].
    + rewrite Hnone. split; [done |]. split; [lia |]. split; [done | auto].
    + cbn [fst snd]. rewrite Hhw in *. split; [split |]; cbn.
      * intros r [Hr | [<- | []]]%in_app_or; auto.
      * rewrite map_app. cbn. apply NoDup_app. split; [done |]. split.
        -- intros x Hx [->|[]%elem_of_nil]%elem_of_cons.
           apply list_elem_of_In, in_map_iff in Hx as (r & Hr & Hin).
           apply max_rowid_bound in Hin. lia.
        -- apply NoDup_singleton.
      * rewrite max_rowid_app.
        change (max_rowid [row]) with (Z.max (id row) 0).
        pose proof (max_rowid_nonneg (responses db)). lia.
      * split; [lia |]. split.
        -- intros rid [= <-]. split; [lia | done].
        -- intros r [Hr | [<- | []]]%in_app_or; [by left | right; lia].
  - destruct (delete_cases v fault req db) as (kept & -> & Hsub & ->).
    cbn [fst responses sqlite_sequence].
    assert (Hin : forall r, In r kept -> In r (responses db)).
    { intros r Hr. apply list_elem_of_In. apply list_elem_of_In in Hr.
      by eapply elem_of_sublist. }
    split; [split |]; cbn [responses sqlite_sequence].
    + auto.
    + eapply sublist_NoDup; [exact Huniq |].
      by apply (fmap_sublist id).
    + apply max_rowid_sublist in Hsub. lia.
    + split; [lia |]. split; [done | auto].
Qed.

Lemma run_cons op ops db :
  run (op :: ops) db =
  (fst (run ops (fst (perform op db))),
   snd (perform op db) :: snd (run ops (fst (perform op db)))).
Proof.
  cbn [run]. destruct (perform op db) as [db' r]. cbn [fst snd].
  by destruct (run ops db').
Qed.

Lemma run_app_fst ops later db :
  fst (run (ops ++ later) db) = fst (run later (fst (run ops db))).
Proof.
  revert db. induction ops as [|op ops IH]; intros db; [done |].
  rewrite <- app_comm_cons, !run_cons. cbn [fst]. apply IH.
Qed.

Lemma assigned_cons r rs :
  omap assigned_id (r :: rs) =
  match assigned_id r with
  | Some rid => rid :: omap assigned_id rs
  | None => omap assigned_id rs
  end.
Proof. done. Qed.

(** Any sequence of operations: the invariant is kept, the identifiers it
    assigns lie above the sequence it started from and increase, and every
    row it leaves is a row it found or carries a newer identifier. *)
Lemma run_steps ops db :
  table_invariant db ->
  table_invariant (fst (run ops db)) /\
  (sqlite_sequence db <= sqlite_sequence (fst (run ops db)))%Z /\
  Forall (fun rid => sqlite_sequence db < rid)%Z
         (omap assigned_id (snd (run ops db))) /\
  StronglySorted Z.lt (omap assigned_id (snd (run ops db))) /\
  (forall r, In r (responses (fst (run ops db))) ->
             In r (responses db) \/ (sqlite_sequence db < id r)%Z).
Proof.
  revert db. induction ops as [|op ops IH]; intros db Hinv.
  - cbn [run fst snd omap list_omap].
    split; [done |]. split; [lia |].
    split; [constructor |]. split; [constructor | auto].
  - rewrite run_cons. cbn [fst snd].
    destruct (perform_step op db Hinv) as (Hinv1 & Hseq1 & Hid1 & Hrows1).
    destruct (IH _ Hinv1) as (Hinv2 & Hseq2 & Hids2 & Hsorted2 & Hrows2).
    assert (Habove : Forall (fun rid => sqlite_sequence db < rid)%Z
                       (omap assigned_id (snd (run ops (fst (perform op db)))))).
    { eapply Forall_impl; [exact Hids2 |]. cbn. intros; lia. }
    split; [done |]. split; [lia |].
    rewrite assigned_cons.
    destruct (assigned_id (snd (perform op db))) as [rid|] eqn:Hrid.
    + destruct (Hid1 rid eq_refl) as [Hlt ->].
      split; [by constructor |]. split; [by constructor |].
      intros r Hr. destruct (Hrows2 r Hr) as [Hold | Hnew]; [auto | right; lia].
    + split; [done |]. split; [done |].
      intros r Hr. destruct (Hrows2 r Hr) as [Hold | Hnew]; [auto | right; lia].
Qed.

Lemma strictly_increasing_NoDup (l : list Z) : StronglySorted Z.lt l -> NoDup l.
Proof.
  induction 1 as [|x l _ IH Hx]; constructor; [| done].
  intros Hin. apply (proj1 (Forall_forall _ _) Hx) in Hin. lia.
Qed.

Lemma same_id_same_row rows (a b : Row) :
  NoDup (List.map id rows) -> In a rows -> In b rows -> id a = id b -> a = b.
Proof.
  induction rows as [|x rows IH]; [done |].
  cbn [List.map]. intros [Hx Hnd]%NoDup_cons [-> | Ha] [-> | Hb] Heq; auto.
  - destruct Hx. rewrite Heq. apply list_elem_of_In. by apply in_map.
  - destruct Hx. rewrite <- Heq. apply list_elem_of_In. by apply in_map.
Qed.

(** C9.  Start from the empty table and perform any sequence of
    submissions and deletions, by any variant, with or without store
    failures.  The identifiers handed out increase strictly, so none is
    handed out twice, deleted or not.  In the table reached, no row has a
    NULL [first_name] or [email].  And a row found later under the
    identifier of a row of that table is that row: its [submitted_at] is
    the one it was created with. *)
Theorem table_invariants_hold ops :
  (StronglySorted Z.lt (omap assigned_id (snd (run ops empty_db))) /\
   NoDup (omap assigned_id (snd (run ops empty_db)))) /\
  (forall r, In r (responses (fst (run ops empty_db))) ->
             first_name r <> None /\ email r <> None) /\
  (forall later r r',
     In r (responses (fst (run ops empty_db))) ->
     In r' (responses (fst (run (ops ++ later) empty_db))) ->
     id r' = id r ->
     r' = r /\ submitted_at r' = submitted_at r).
Proof.
  destruct (run_steps ops empty_db table_invariant_empty)
    as (Hinv & _ & _ & Hsorted & _).
  split; [split; [done | by apply strictly_increasing_NoDup] |].
  split; [apply Hinv |].
  intros later r r' Hr Hr' Hid.
  rewrite run_app_fst in Hr'.
  destruct (run_steps later _ Hinv) as (_ & _ & _ & _ & Hrows).
  destruct (Hrows r' Hr') as [Hold | Hnew].
  - assert (r' = r) as -> by (eapply same_id_same_row; eauto; apply Hinv).
    done.
  - apply max_rowid_bound in Hr. pose proof (inv_sequence _ Hinv). lia.
Qed.

Lemma table_invariants_hold_witness :
  first_name ana_row <> None /\ email ana_row <> None.
Proof.
  apply (proj1 (proj2 (table_invariants_hold
           [Submit V1 false "2025-01-02 10:00:00" ana_request]))).
  left. reflexivity.
Defined.

(** ** Search: what LIKE selects *)

Lemma starts_with_spec p s :
  starts_with p s = true <-> exists after, s = p +:+ after.
Proof.
  revert s. induction p as [|a p IH]; intros s; cbn.
  - split; [by exists s | done].
  - destruct s as [|b s].
    + split; [done | by intros [? [=]]].
    + rewrite andb_true_iff, IH. split.
      * intros [->%Ascii.eqb_eq [after ->]]. by exists after.
      * intros [after [= -> ->]]. split; [apply Ascii.eqb_refl | by exists after].
Qed.

Lemma occurs_in_spec q s : occurs_in q s = true <-> contains q s.
Proof.
  unfold contains. induction s as [|b s IH]; cbn [occurs_in].
  - rewrite orb_false_r, starts_with_spec. split.
    + intros [after ->]. by exists "", after.
    + intros ([|? ?] & after & H); [by exists after | done].
  - rewrite orb_true_iff, starts_with_spec, IH. split.
    + intros [[after ->] | (before & after & ->)].
      * by exists "", after.
      * by exists (String b before), after.
    + intros ([|c before] & after & H).
      * left. by exists after.
      * right. injection H as -> ->. by exists before, after.
Qed.

Lemma like_literal c p text :
  c <> "%"%char -> c <> "_"%char ->
  like (String c p) text =
  match text with
  | EmptyString => false
  | String d text' => Ascii.eqb (to_lower c) (to_lower d) && like p text'
  end.
Proof.
  intros H1%Ascii.eqb_neq H2%Ascii.eqb_neq. cbn [like]. by rewrite H1, H2.
Qed.



Lemma search_with_query v req db q :
  Req.query req = JStr q -> q <> "" ->
  search v false req db =
  json (Rows (rows_key v)
          (length (List.filter (like_selects q) (responses db)))
          (List.map (select all_columns)
             (order_by_submitted_at_desc
                (List.filter (like_selects q) (responses db))))).
Proof.
  intros Hq Hne.
  assert (Hlen : forall rows,
    length (List.map (select all_columns) (order_by_submitted_at_desc rows)) =
    length rows)
    by (intros; by rewrite length_map, (Permutation_length (order_by_perm _))).
  unfold search, search_rows, db_call, sql_search, JS.or.
  rewrite Hq, valid_name_truthy by done. cbn [negb template].
  fold (like_selects q). rewrite Hlen. by destruct v.
Qed.




(** C10.  The search puts the query between two [%] as it is, so [_] and
    [%] in it are wildcards: the query [A_a] returns the row of Ana, in
    variant 1 and in variant 3, although neither her name nor her address
    contains [A_a], in any case of letters. *)
Theorem search_wildcards_not_escaped :
  exists db q row name address,
    (occurs_in "_" q = true \/ occurs_in "%" q = true) /\
    In row (responses db) /\
    first_name row = Some name /\ email row = Some address /\
    ~ contains q name /\ ~ contains q address /\
    ~ contains_ci q name /\ ~ contains_ci q address /\
    sent (search V1 false (bare_request "" (JStr q)) db) =
      Rows "responses" 1 [select all_columns row] /\
    sent (search V3 false (bare_request "" (JStr q)) db) =
      Rows "responses" 1 [select all_columns row].
Proof.
  exists ana_db, "A_a", ana_row, "Ana", "a@x.com".
  split; [by left |]. split; [by left |].
  do 2 (split; [reflexivity |]).
  repeat split; try reflexivity; intros H%occurs_in_spec; discriminate H.
Qed.

(** ** Export *)

Lemma append_cons x (a b : string) : String x a +:+ b = String x (a +:+ b).
Proof. reflexivity. Qed.

Lemma append_assoc (a b c : string) : (a +:+ b) +:+ c = a +:+ (b +:+ c).
Proof. induction a as [|x a IH]; [done |]. by rewrite !append_cons, IH. Qed.




Lemma property_select_all r c :
  property (select all_columns r) c = js_of_sql (col_value r c).
Proof. by destruct c. Qed.



(** [`${value || ''}`] is the text of the value, NULL being empty. *)
Lemma or_empty_text t :
  template (JS.or (js_of_sql (sql_text t)) (JStr "")) = text_of (sql_text t).
Proof.
  destruct t as [s|]; [| done]. unfold JS.or. cbn.
  by destruct (String.eqb_spec s "") as [-> | _].
Qed.














(** * Further properties of the handlers *)

(** ** The daily breakdown of variant 2 *)

Lemma sql_leb_antisym a b : sql_leb a b = true -> sql_leb b a = true -> a = b.
Proof.
  destruct a, b; cbn; try done.
  intros H1 H2. f_equal. by apply String.leb_antisym.
Qed.

Lemma insert_day_desc_perm d l : Permutation (insert_day_desc d l) (d :: l).
Proof.
  induction l as [|x l IH]; [done |]. cbn.
  destruct (sql_leb d x); [| done].
  rewrite IH. apply perm_swap.
Qed.

Lemma insert_day_desc_sorted d l :
  StronglySorted (fun a b => sql_leb b a = true) l ->
  StronglySorted (fun a b => sql_leb b a = true) (insert_day_desc d l).
Proof.
  induction 1 as [|x l Hl IH Hx]; cbn.
  - repeat constructor.
  - destruct (sql_leb d x) eqn:Hdx.
    + constructor; [done |].
      apply Forall_forall. intros y Hy.
      rewrite insert_day_desc_perm in Hy.
      apply elem_of_cons in Hy as [-> | Hy]; [done |].
      by apply (proj1 (Forall_forall _ _) Hx).
    + assert (sql_leb x d = true) as Hxd
        by (destruct (sql_leb_total d x); congruence).
      constructor; [by constructor |].
      constructor; [done |].
      eapply Forall_impl; [exact Hx |].
      intros y Hy. exact (sql_leb_trans _ _ _ Hy Hxd).
Qed.

Lemma sort_days_perm days acc :
  Permutation (fold_left (fun sorted d => insert_day_desc d sorted) days acc)
              (acc ++ days).
Proof.
  revert acc. induction days as [|d days IH]; intros acc; cbn.
  - by rewrite app_nil_r.
  - rewrite IH, insert_day_desc_perm. apply Permutation_middle.
Qed.

Lemma sort_days_sorted days acc :
  StronglySorted (fun a b => sql_leb b a = true) acc ->
  StronglySorted (fun a b => sql_leb b a = true)
    (fold_left (fun sorted d => insert_day_desc d sorted) days acc).
Proof.
  revert acc. induction days as [|d days IH]; intros acc Hacc; [done |].
  cbn. by apply IH, insert_day_desc_sorted.
Qed.

Lemma StronglySorted_sublist {A} (R : A -> A -> Prop) k l :
  sublist k l -> StronglySorted R l -> StronglySorted R k.
Proof.
  induction 1 as [|x k l Hkl IH|x k l Hkl IH]; intros Hl; [done | |].
  - apply StronglySorted_inv in Hl as [Hl Hx].
    constructor; [auto |].
    apply Forall_forall. intros y Hy.
    apply (proj1 (Forall_forall _ _) Hx). by eapply elem_of_sublist.
  - apply StronglySorted_inv in Hl as [Hl _]. auto.
Qed.

Lemma sorted_distinct_strict l :
  StronglySorted (fun a b => sql_leb b a = true) l -> NoDup l ->
  StronglySorted later_day l.
Proof.
  induction 1 as [|x l Hl IH Hx]; intros Hnd; [constructor |].
  apply NoDup_cons in Hnd as [Hx' Hnd].
  constructor; [auto |].
  apply Forall_forall. intros y Hy. split.
  - by apply (proj1 (Forall_forall _ _) Hx).
  - by intros ->.
Qed.

(** The days of the breakdown: the thirty latest of the table's days. *)
Lemma breakdown_days db :
  exists days,
    sql_daily_breakdown db = List.map (group_row (responses db)) days /\
    sublist days
      (fold_left (fun sorted d => insert_day_desc d sorted) (distinct_days db) []) /\
    (length days <= 30)%nat /\
    ((length (distinct_days db) <= 30)%nat -> Permutation days (distinct_days db)) /\
    NoDup days /\
    StronglySorted later_day days /\
    (forall d, In d days -> exists r, In r (responses db) /\ day_of r = d).
Proof.
  set (sorted := fold_left (fun sorted d => insert_day_desc d sorted)
                   (distinct_days db) []).
  assert (Hperm : Permutation sorted (distinct_days db))
    by apply (sort_days_perm (distinct_days db) []).
  assert (Hnd : NoDup sorted)
    by (rewrite Hperm; apply NoDup_remove_dups).
  assert (Hsorted : StronglySorted (fun a b => sql_leb b a = true) sorted)
    by (apply sort_days_sorted; constructor).
  exists (firstn 30 sorted).
  split; [done |]. split; [apply sublist_take |].
  split; [apply firstn_le_length |].
  split; [| split; [| split]].
  - intros Hlen. rewrite firstn_all2; [done |].
    by rewrite (Permutation_length Hperm).
  - eapply sublist_NoDup; [exact Hnd | apply sublist_take].
  - apply sorted_distinct_strict.
    + eapply StronglySorted_sublist; [apply sublist_take | done].
    + eapply sublist_NoDup; [exact Hnd | apply sublist_take].
  - intros d Hd. apply list_elem_of_In in Hd.
    eapply elem_of_sublist in Hd; [| apply sublist_take].
    rewrite Hperm in Hd. unfold distinct_days in Hd.
    rewrite elem_of_remove_dups in Hd.
    apply list_elem_of_In, in_map_iff in Hd as (r & Hr & Hin). by exists r.
Qed.

Lemma distinct_count_le {A} `{EqDecision B} (f : A -> option B) (l : list A) :
  (length (remove_dups (omap f l)) <= length l)%nat.
Proof.
  transitivity (length (omap f l)).
  - induction (omap f l) as [|x k IH]; [done |]. cbn.
    destruct (decide_rel _ _ _); cbn; lia.
  - induction l as [|x l IH]; [done |]. cbn.
    destruct (f x); cbn; lia.
Qed.

(** Rows are counted once: over distinct days, the counts add up to the
    number of rows submitted on one of them. *)
Lemma day_counts_add_up rows days :
  NoDup days ->
  sum_daily (List.map (group_row rows) days) =
  Z.of_nat (length (List.filter (fun r => bool_decide (day_of r ∈ days)) rows)).
Proof.
  induction 1 as [|d days Hd Hnd IH]; cbn [List.map sum_daily fold_right].
  - induction rows as [|r rows IHr]; [done |]. cbn.
    rewrite bool_decide_eq_false_2; [done | by intros ?%elem_of_nil].
  - fold (sum_daily (List.map (group_row rows) days)). rewrite IH.
    cbn [daily_count group_row]. rewrite <- Nat2Z.inj_add. f_equal.
    clear IH. induction rows as [|r rows IHr]; [done |].
    cbn [List.filter]. unfold on_day at 1. fold (day_of r).
    destruct (decide (day_of r = d)) as [E | E].
    + rewrite bool_decide_eq_true_2 by done.
      rewrite (bool_decide_eq_true_2 (day_of r ∈ d :: days)) by (rewrite E; left).
      rewrite (bool_decide_eq_false_2 (day_of r ∈ days)) by (by rewrite E).
      cbn [length]. lia.
    + rewrite bool_decide_eq_false_2 by done.
      destruct (decide (day_of r ∈ days)) as [Hin | Hout].
      * rewrite !bool_decide_eq_true_2 by (try right; done). cbn [length]. lia.
      * rewrite !bool_decide_eq_false_2
          by (try (intros [?|?]%elem_of_cons); done).
        lia.
Qed.

Lemma filter_length_le_all {A} (f : A -> bool) (l : list A) :
  (forall x, In x l -> f x = true) -> List.filter f l = l.
Proof.
  induction l as [|x l IH]; [done |]. cbn. intros H.
  rewrite (H x) by auto. f_equal. auto.
Qed.

(** X1.  The statistics handler of variant 2 answers 500 when the grouped
    query fails, and does not answer at all when only the count fails (the
    callback throws on [total.total]).  Otherwise [totalResponses] is the
    number of rows the count statement finds.  The daily counts of the
    breakdown never add up to more than the number of rows the grouped
    query found, and add up to exactly that when those rows span at most
    thirty days.  The two statements are not one transaction: the daily
    counts stay within [totalResponses] when the table has not shrunk in
    between, and exceed it when, say, the only row is deleted in
    between. *)
Theorem daily_breakdown_accounts_for_rows fault_total db_days db_total :
  get_stats_v2_interleaved true fault_total db_days db_total =
    Answered (fail 500 "Failed to fetch stats") /\
  get_stats_v2_interleaved false true db_days db_total = Uncaught "TypeError" /\
  (exists rows,
     get_stats_v2_interleaved false false db_days db_total =
       Breakdown (Z.of_nat (length (responses db_total))) rows /\
     (sum_daily rows <= Z.of_nat (length (responses db_days)))%Z /\
     ((length (distinct_days db_days) <= 30)%nat ->
      sum_daily rows = Z.of_nat (length (responses db_days))) /\
     ((length (responses db_days) <= length (responses db_total))%nat ->
      (sum_daily rows <= Z.of_nat (length (responses db_total)))%Z)) /\
  (exists rows,
     get_stats_v2_interleaved false false ana_db empty_db = Breakdown 0 rows /\
     sum_daily rows = 1%Z).
Proof.
  split; [done |]. split; [done |]. split.
  - destruct (breakdown_days db_days)
      as (days & Hrows & _ & _ & Hall & Hnd & _ & _).
    exists (sql_daily_breakdown db_days). split; [done |].
    rewrite Hrows, day_counts_add_up by done.
    assert (Hle : (length (List.filter
                             (fun r => bool_decide (day_of r ∈ days))
                             (responses db_days)) <=
                   length (responses db_days))%nat)
      by apply filter_length_le.
    split; [lia |]. split; [| lia].
    intros Hfew. f_equal. f_equal. apply filter_length_le_all.
    intros r Hr. apply bool_decide_eq_true_2.
    rewrite (Hall Hfew). unfold distinct_days.
    apply elem_of_remove_dups, list_elem_of_In, in_map. done.
  - by eexists.
Qed.

Lemma daily_breakdown_accounts_for_rows_witness :
  exists rows,
    get_stats_v2_interleaved false false ana_db ana_then_bob_db =
      Breakdown (Z.of_nat (length (responses ana_then_bob_db))) rows /\
    sum_daily rows = Z.of_nat (length (responses ana_db)) /\
    (sum_daily rows <= Z.of_nat (length (responses ana_then_bob_db)))%Z.
Proof.
  destruct (proj1 (proj2 (proj2
              (daily_breakdown_accounts_for_rows false ana_db ana_then_bob_db))))
    as (rows & Hrows & _ & Hsum & Hwithin).
  exists rows. split; [exact Hrows |]. split.
  - apply Hsum. vm_compute. lia.
  - apply Hwithin. vm_compute. lia.
Defined.

Lemma group_rows_sorted rows days :
  StronglySorted later_day days ->
  StronglySorted (fun a b => later_day (date a) (date b))
    (List.map (group_row rows) days).
Proof.
  induction 1 as [|d days _ IH Hd]; cbn [List.map]; constructor; [done |].
  apply Forall_forall. intros g Hg.
  apply list_elem_of_In, in_map_iff in Hg as (d' & <- & Hd').
  apply (proj1 (Forall_forall _ _) Hd). by apply list_elem_of_In.
Qed.

(** X2.  The breakdown of variant 2 has at most thirty rows, one per day,
    latest day first.  Each row counts the rows of the table submitted on
    its day, of which there is at least one; its [total_responses] is that
    same daily count, not the size of the table; and its [unique_emails]
    lies between zero and the daily count. *)
Theorem daily_breakdown_shape db :
  exists rows,
    get_stats_v2 false false db =
      Breakdown (Z.of_nat (length (responses db))) rows /\
    (length rows <= 30)%nat /\
    StronglySorted (fun a b => later_day (date a) (date b)) rows /\
    Forall (fun g =>
              daily_count g =
                Z.of_nat (length (List.filter (on_day (date g)) (responses db))) /\
              (1 <= daily_count g)%Z /\
              total_responses g = daily_count g /\
              (0 <= unique_emails g <= daily_count g)%Z) rows.
Proof.
  destruct (breakdown_days db)
    as (days & Hrows & _ & Hlen & _ & _ & Hsorted & Hdays).
  exists (sql_daily_breakdown db). split; [done |]. rewrite Hrows.
  split; [by rewrite length_map |].
  split; [by apply group_rows_sorted |].
  apply Forall_forall. intros g Hg.
  apply list_elem_of_In, in_map_iff in Hg as (d & <- & Hd).
  cbn [daily_count total_responses unique_emails date group_row].
  split; [done |]. split; [| split; [done |]].
  - destruct (Hdays d Hd) as (r & Hr & Hday).
    assert (In r (List.filter (on_day d) (responses db))) as Hin.
    { apply filter_In. split; [done |]. by apply bool_decide_eq_true_2. }
    destruct (List.filter (on_day d) (responses db)); [done | cbn; lia].
  - split; [lia |]. apply inj_le, distinct_count_le.
Qed.

(** ** What a status says about the table *)

(** X3.  An operation that is not answered 200 leaves the database as it
    was: a rejected or failed submission writes nothing, and a deletion
    answered 404 or 500 removes nothing.  A submission answered 200 added
    exactly one row, and a deletion answered 200 by variant 1 or 2 removed
    at least one. *)
Theorem status_tells_whether_table_changed op db :
  (status (snd (perform op db)) <> 200%nat -> fst (perform op db) = db) /\
  (forall v fault now req,
     op = Submit v fault now req ->
     status (snd (perform op db)) = 200%nat ->
     length (responses (fst (perform op db))) = S (length (responses db))) /\
  (forall v fault req,
     op = Delete v fault req -> v <> V3 ->
     status (snd (perform op db)) = 200%nat ->
     (length (responses (fst (perform op db))) < length (responses db))%nat).
Proof.
  split; [| split].
  - destruct op as [v fault now req | v fault req]; cbn [perform].
    + destruct (submit_cases v fault now req db) as [[-> _] | (row & -> & _)];
        [done | by cbn].
    + unfold delete_response, sql_delete_by_id.
      destruct fault; [done |].
      destruct (_ - _ =? 0)%nat eqn:Hchanges.
      * apply Nat.eqb_eq, filter_all_length in Hchanges. rewrite Hchanges.
        destruct db. by destruct v.
      * by destruct v.
  - intros v fault now req -> H. cbn [perform] in *.
    destruct (submit_cases v fault now req db) as [[_ Hnone] | (row & Hsub & _)].
    + revert H Hnone. unfold submit_questionnaire.
      destruct (negb _ || negb _); [done |].
      by destruct (db_run_insert _ _ _ _) as [? []].
    + rewrite Hsub. cbn. rewrite length_app. cbn. lia.
  - intros v fault req -> Hv H. cbn [perform] in *.
    revert H. unfold delete_response, sql_delete_by_id.
    destruct fault; [done |].
    pose proof (filter_length_le
                  (fun r => negb (id_matches (Req.params_id req) r)) (responses db)).
    destruct (_ - _ =? 0)%nat eqn:Hchanges; [by destruct v |].
    apply Nat.eqb_neq in Hchanges. destruct v; try done; cbn; lia.
Qed.

Lemma status_tells_whether_table_changed_witness :
  fst (perform (Delete V1 false (bare_request "7" JUndefined)) ana_db) = ana_db.
Proof.
  apply (proj1 (status_tells_whether_table_changed
                  (Delete V1 false (bare_request "7" JUndefined)) ana_db)).
  vm_compute. discriminate.
Defined.

(** ** What a submission stores *)

Lemma decimal_not_empty n : decimal n <> "".
Proof.
  unfold decimal, NilZero.string_of_int, NilZero.string_of_uint.
  by destruct (Z.to_int n) as [[] | []].
Qed.

(** The row an accepted submission appends, field by field. *)
Lemma submit_appends v fault now req db :
  fst (submit_questionnaire v fault now req db) = db \/
  exists fn em q1 q2 q3 q4 q5 ip ua,
    List.map (fun p => text_affinity (bind p)) (insert_params v req) =
      [Some fn; Some em; q1; q2; q3; q4; q5; ip; ua] /\
    submit_questionnaire v fault now req db =
      ({| responses := responses db ++
            [{| id := (high_water db + 1)%Z;
                first_name := Some fn; email := Some em;
                question_1 := q1; question_2 := q2; question_3 := q3;
                question_4 := q4; question_5 := q5;
                submitted_at := Some now;
                ip_address := ip; user_agent := ua |}];
          sqlite_sequence := (high_water db + 1)%Z |},
       json (Saved (high_water db + 1)%Z "Response saved successfully")).
Proof.
  unfold submit_questionnaire, db_run_insert.
  destruct (negb _ || negb _); [by left |].
  destruct fault; [by left |].
  unfold sql_insert.
  destruct (List.map _ (insert_params v req))
    as [|[fn|] [|[em|] [|q1 [|q2 [|q3 [|q4 [|q5 [|ip [|ua [|]]]]]]]]]] eqn:Hp;
    try (by left).
  destruct (MAX_ROWID <=? high_water db)%Z; [by left |].
  right. by exists fn, em, q1, q2, q3, q4, q5, ip, ua.
Qed.

Lemma append_not_empty a b : a <> "" -> a ++ b <> "".
Proof. by destruct a. Qed.

Lemma real_text_not_empty n : real_text n <> "".
Proof.
  unfold real_text. destruct (Z.abs n <? 10 ^ 15)%Z.
  - apply (append_not_empty (decimal n)), decimal_not_empty.
  - destruct (n <? 0)%Z; [done |].
    apply (append_not_empty (decimal _)), decimal_not_empty.
Qed.

Lemma or_null_not_empty q :
  scalar q -> text_affinity (bind (JS.or q JNull)) <> Some "".
Proof.
  destruct q as [| |[]|n|s|text]; intros Hq; unfold JS.or; cbn [truthy];
    try done.
  - destruct (n =? 0)%Z; cbn [negb bind text_affinity]; [done |].
    destruct (fits_int32 n); cbn [text_affinity]; intros [= H].
    + by apply decimal_not_empty in H.
    + by apply real_text_not_empty in H.
  - destruct (String.eqb_spec s ""); cbn; [done | congruence].
Qed.

(** Rows found after a sequence of operations were there before or were
    written by one of them. *)
Lemma run_rows (P : Row -> Prop) ops db :
  Forall (fun op => forall db r,
            In r (responses (fst (perform op db))) ->
            In r (responses db) \/ P r) ops ->
  forall r, In r (responses (fst (run ops db))) -> In r (responses db) \/ P r.
Proof.
  intros Hops. revert db. induction Hops as [|op ops Hop _ IH]; intros db r.
  - by left.
  - rewrite run_cons. cbn [fst]. intros Hr.
    destruct (IH _ _ Hr) as [Hmid | HP]; [| by right].
    by apply Hop.
Qed.

Lemma delete_keeps_rows v fault req db r :
  In r (responses (fst (delete_response v fault req db))) -> In r (responses db).
Proof.
  destruct (delete_cases v fault req db) as (kept & -> & Hsub & _).
  cbn [responses]. intros Hr.
  apply list_elem_of_In. apply list_elem_of_In in Hr.
  by eapply elem_of_sublist.
Qed.

(** X4.  Variants 1 and 2 never store an empty answer that came as a JSON
    scalar.  After any sequence of their submissions whose answers are
    scalars or missing (strings, numbers, booleans, null; not arrays or
    objects, which [x || null] lets through), and of deletions by any
    variant, starting from the empty table, no question column of any row
    holds the empty string.  An empty answer is stored as NULL by variants
    1 and 2 and as the empty string by variant 3. *)
Theorem v1_v2_store_no_empty_answer ops :
  Forall not_a_v3_submission ops ->
  Forall scalar_answers ops ->
  (forall r, In r (responses (fst (run ops empty_db))) ->
             Forall (fun a => a <> Some "") (row_answers r)) /\
  (forall v now req db,
     valid_submission req ->
     (high_water db < MAX_ROWID)%Z ->
     Req.question1 (Req.body req) = JStr "" ->
     exists row,
       responses (fst (submit_questionnaire v false now req db)) =
         (responses db ++ [row])%list /\
       question_1 row = match v with V3 => Some "" | _ => None end).
Proof.
  intros Hops Hscalar. split.
  - intros r Hr.
    destruct (run_rows (fun r => Forall (fun a => a <> Some "") (row_answers r))
                ops empty_db) with (r := r) as [[] | H]; [| done | done].
    apply Forall_forall. intros op Hop.
    pose proof (proj1 (Forall_forall _ _) Hops op Hop) as Hv.
    pose proof (proj1 (Forall_forall _ _) Hscalar op Hop) as Hs.
    clear Hops Hscalar Hop Hr r.
    destruct op as [v fault now req | v fault req]; intros db r' Hr';
      cbn [perform] in Hr'.
    + destruct (submit_appends v fault now req db)
        as [Hsame | (fn & em & q1 & q2 & q3 & q4 & q5 & ip & ua & Hp & Hsub)].
      * left. by rewrite Hsame in Hr'.
      * rewrite Hsub in Hr'. cbn [fst responses] in Hr'.
        apply in_app_or in Hr' as [Hold | [<- | []]]; [by left | right].
        unfold row_answers. cbn.
        cbn [scalar_answers body_answers] in Hs.
        apply Forall_cons in Hs as [Hs1 Hs].
        apply Forall_cons in Hs as [Hs2 Hs].
        apply Forall_cons in Hs as [Hs3 Hs].
        apply Forall_cons in Hs as [Hs4 Hs].
        apply Forall_cons in Hs as [Hs5 _].
        destruct v; [| | done]; injection Hp as _ _ <- <- <- <- <- _ _;
          repeat constructor; by apply or_null_not_empty.
    + left. by eapply delete_keeps_rows.
  - intros v now req db (fn & em & Hf & Hfn & He & Hem) Hroom Hq.
    destruct (submit_appends v false now req db)
      as [Hsame | (fn' & em' & q1 & q2 & q3 & q4 & q5 & ip & ua & Hp & Hsub)].
    + destruct (submit_valid_stored v now req db fn em Hf Hfn He Hem Hroom)
        as (row' & Hsub & _).
      rewrite Hsub in Hsame. cbn in Hsame.
      apply (f_equal (fun d => length (responses d))) in Hsame.
      cbn in Hsame. rewrite length_app in Hsame. cbn in Hsame. lia.
    + rewrite Hsub. cbn [fst responses]. eexists. split; [done |]. cbn.
      unfold insert_params in Hp. rewrite Hq in Hp.
      by destruct v; injection Hp as _ _ <- _.
Qed.

Lemma v1_v2_store_no_empty_answer_witness :
  Forall (fun a => a <> Some "") (row_answers ana_row) /\
  exists row,
    responses (fst (submit_questionnaire V2 false "2025-01-03 09:30:00"
                      blank_answer_request ana_db)) =
      (responses ana_db ++ [row])%list /\
    question_1 row = None.
Proof.
  assert (H := v1_v2_store_no_empty_answer
                 [Submit V1 false "2025-01-02 10:00:00" ana_request]
                 ltac:(by repeat constructor)
                 ltac:(by repeat (constructor; cbn))).
  split.
  - apply (proj1 H). left. reflexivity.
  - apply (proj2 H V2 "2025-01-03 09:30:00" blank_answer_request ana_db).
    + by exists "Bob", "b@x.com".
    + reflexivity.
    + reflexivity.
Defined.

Lemma fresh_row_not_matched db param r :
  rowid_of_text param = Some (high_water db + 1)%Z ->
  In r (responses db) -> id_matches param r = false.
Proof.
  intros Hp Hr%max_rowid_bound. unfold id_matches. rewrite Hp.
  apply Z.eqb_neq. unfold high_water. lia.
Qed.

(** X5.  What is submitted comes back verbatim.  After a valid submission
    the store accepts with an identifier of at most 2^53, the [responseId]
    the client reads is that identifier, and looking it up gives a row
    whose [submitted_at] is the store's clock at the insert, whose answers
    are the non-empty texts that were sent (a missing answer is NULL), and
    whose [user_agent] is the request's header (NULL without one).
    Nothing is trimmed or rewritten. *)
Theorem submission_comes_back_verbatim v v' now req db :
  valid_submission req ->
  (high_water db <= MAX_SAFE_INTEGER)%Z ->
  exists responseId db' row,
    submit_questionnaire v false now req db =
      (db', json (Saved responseId "Response saved successfully")) /\
    js_number responseId = responseId /\
    (forall lookup,
       Req.params_id lookup = decimal (js_number responseId) ->
       get_response v' false lookup db' = json (Single (select all_columns row))) /\
    submitted_at row = Some now /\
    (forall k s,
       body_answers (Req.body req) !! k = Some (JStr s) -> s <> "" ->
       row_answers row !! k = Some (Some s)) /\
    (forall k,
       body_answers (Req.body req) !! k = Some JUndefined ->
       row_answers row !! k = Some None) /\
    (forall u, Req.user_agent req = JStr u -> user_agent row = Some u) /\
    (Req.user_agent req = JUndefined -> user_agent row = None).
Proof.
  intros (fn & em & Hf & Hfn & He & Hem) Hsafe.
  assert (Hroom : (high_water db < MAX_ROWID)%Z)
    by (pose proof safe_below_max_rowid; lia).
  destruct (submit_appends v false now req db)
    as [Hsame | (fn' & em' & q1 & q2 & q3 & q4 & q5 & ip & ua & Hp & Hsub)].
  { destruct (submit_valid_stored v now req db fn em Hf Hfn He Hem Hroom)
      as (row' & Hsub & _).
    rewrite Hsub in Hsame. cbn in Hsame.
    apply (f_equal (fun d => length (responses d))) in Hsame.
    cbn in Hsame. rewrite length_app in Hsame. cbn in Hsame. lia. }
  eexists _, _,
    {| id := (high_water db + 1)%Z; first_name := Some fn'; email := Some em';
       question_1 := q1; question_2 := q2; question_3 := q3;
       question_4 := q4; question_5 := q5; submitted_at := Some now;
       ip_address := ip; user_agent := ua |}.
  split; [exact Hsub |].
  split; [by apply next_rowid_safe |].
  split; [| split; [done |]].
  - intros lookup Hl. rewrite next_rowid_safe in Hl by done.
    unfold get_response, db_call.
    rewrite select_by_id_appended; [done | |].
    + by rewrite Hl, rowid_of_decimal.
    + cbn [id]. unfold high_water. lia.
  - unfold insert_params in Hp. cbn [row_answers question_1 question_2
      question_3 question_4 question_5 user_agent].
    assert (Hor : forall s, s <> "" ->
              text_affinity (bind (JS.or (JStr s) JNull)) = Some s).
    { intros s Hs. unfold JS.or. by rewrite valid_name_truthy. }
    split; [| split; [| split]].
    + intros k s Hk Hs. unfold body_answers in Hk.
      destruct v; injection Hp as _ _ <- <- <- <- <- _ _;
        destruct k as [|[|[|[|[|k]]]]]; cbn in Hk; try done;
        injection Hk as Hk; rewrite Hk; cbn [lookup list_lookup];
        by rewrite ?Hor.
    + intros k Hk. unfold body_answers in Hk.
      destruct v; injection Hp as _ _ <- <- <- <- <- _ _;
        destruct k as [|[|[|[|[|k]]]]]; cbn in Hk; try done;
        injection Hk as Hk; by rewrite Hk.
    + intros u Hu. rewrite Hu in Hp. by destruct v; injection Hp as _ _ _ _ _ _ _ _ <-.
    + intros Hu. rewrite Hu in Hp. by destruct v; injection Hp as _ _ _ _ _ _ _ _ <-.
Qed.

Lemma submission_comes_back_verbatim_witness :
  exists responseId db' row,
    submit_questionnaire V2 false "2025-01-02 10:00:00" ana_request empty_db =
      (db', json (Saved responseId "Response saved successfully")) /\
    js_number responseId = responseId /\
    (forall lookup,
       Req.params_id lookup = decimal (js_number responseId) ->
       get_response V2 false lookup db' = json (Single (select all_columns row))) /\
    submitted_at row = Some "2025-01-02 10:00:00" /\
    (forall k s,
       body_answers (Req.body ana_request) !! k = Some (JStr s) -> s <> "" ->
       row_answers row !! k = Some (Some s)) /\
    (forall k,
       body_answers (Req.body ana_request) !! k = Some JUndefined ->
       row_answers row !! k = Some None) /\
    (forall u, Req.user_agent ana_request = JStr u -> user_agent row = Some u) /\
    (Req.user_agent ana_request = JUndefined -> user_agent row = None).
Proof.
  apply (submission_comes_back_verbatim V2 V2 "2025-01-02 10:00:00"
           ana_request empty_db).
  - by exists "Ana", "a@x.com".
  - vm_compute. discriminate.
Defined.

(** X6.  The address a row records.  Variant 1 stores the request's
    [X-Forwarded-For] header whenever it is a non-empty text, whatever the
    address of the connection; variants 2 and 3 store [req.ip] likewise.
    Only when that first source is missing or empty is the address of the
    connection stored, and NULL when there is none. *)
Theorem caller_address_stored v now req db :
  valid_submission req ->
  (high_water db < MAX_ROWID)%Z ->
  exists row,
    responses (fst (submit_questionnaire v false now req db)) =
      (responses db ++ [row])%list /\
    (forall a, address_source v req = JStr a -> a <> "" ->
               ip_address row = Some a) /\
    (missing (address_source v req) \/ empty (address_source v req) ->
     (forall a, Req.remoteAddress req = JStr a -> ip_address row = Some a) /\
     (Req.remoteAddress req = JUndefined -> ip_address row = None)).
Proof.
  intros (fn & em & Hf & Hfn & He & Hem) Hroom.
  destruct (submit_appends v false now req db)
    as [Hsame | (fn' & em' & q1 & q2 & q3 & q4 & q5 & ip & ua & Hp & Hsub)].
  { destruct (submit_valid_stored v now req db fn em Hf Hfn He Hem Hroom)
      as (row' & Hsub & _).
    rewrite Hsub in Hsame. cbn in Hsame.
    apply (f_equal (fun d => length (responses d))) in Hsame.
    cbn in Hsame. rewrite length_app in Hsame. cbn in Hsame. lia. }
  rewrite Hsub. cbn [fst responses]. eexists. split; [done |].
  cbn [ip_address].
  assert (Hip : ip = text_affinity
                       (bind (JS.or (address_source v req) (Req.remoteAddress req)))).
  { unfold insert_params in Hp.
    by destruct v; injection Hp as _ _ _ _ _ _ _ <- _. }
  rewrite Hip. split.
  - intros a -> Ha. unfold JS.or. by rewrite valid_name_truthy.
  - intros Hnone.
    assert (truthy (address_source v req) = false) as Hfalsy
      by (destruct Hnone; eauto using missing_falsy, empty_falsy).
    unfold JS.or. rewrite Hfalsy. split; [by intros a -> | by intros ->].
Qed.

Lemma caller_address_stored_witness :
  exists row,
    responses (fst (submit_questionnaire V1 false "2025-01-02 10:00:00"
                      ana_request empty_db)) =
      (responses empty_db ++ [row])%list /\
    (forall a, address_source V1 ana_request = JStr a -> a <> "" ->
               ip_address row = Some a) /\
    (missing (address_source V1 ana_request) \/
     empty (address_source V1 ana_request) ->
     (forall a, Req.remoteAddress ana_request = JStr a -> ip_address row = Some a) /\
     (Req.remoteAddress ana_request = JUndefined -> ip_address row = None)).
Proof.
  apply (caller_address_stored V1 "2025-01-02 10:00:00" ana_request empty_db).
  - by exists "Ana", "a@x.com".
  - reflexivity.
Defined.

(** ** Deletion and the other operations *)

Lemma filter_app_last {A} (f : A -> bool) l x :
  List.filter f (l ++ [x]) = (List.filter f l ++ if f x then [x] else [])%list.
Proof.
  induction l as [|y l IH]; [by cbn; destruct (f x) |].
  cbn. rewrite IH. by destruct (f y).
Qed.

(** X7.  An identifier is not handed out again after its row is deleted.
    Where the identifiers are at most 2^53, so that the client reads them
    as they are: submit, delete the row under the returned identifier,
    submit again.  The deletion is answered with success by every variant
    and leaves the rows that were there before the first submission, and
    the second submission receives the next identifier, not the freed
    one. *)
Theorem deleted_id_is_not_reissued v v' v'' now now' req req' del db :
  valid_submission req -> valid_submission req' ->
  (high_water db + 1 <= MAX_SAFE_INTEGER)%Z ->
  exists responseId db1 db2 db3,
    submit_questionnaire v false now req db =
      (db1, json (Saved responseId "Response saved successfully")) /\
    js_number responseId = responseId /\
    js_number (responseId + 1) = (responseId + 1)%Z /\
    (Req.params_id del = decimal (js_number responseId) ->
     delete_response v' false del db1 =
       (db2, json (Message true "Response deleted successfully")) /\
     responses db2 = responses db /\
     submit_questionnaire v'' false now' req' db2 =
       (db3, json (Saved (responseId + 1)%Z "Response saved successfully"))).
Proof.
  intros (fn & em & Hf & Hfn & He & Hem) (fn' & em' & Hf' & Hfn' & He' & Hem') Hsafe.
  assert (Hroom : (high_water db + 1 < MAX_ROWID)%Z)
    by (pose proof safe_below_max_rowid; lia).
  assert (Hjs : js_number (high_water db + 1) = (high_water db + 1)%Z)
    by (apply next_rowid_safe; lia).
  assert (Hjs' : js_number (high_water db + 1 + 1) = (high_water db + 1 + 1)%Z).
  { pose proof (high_water_nonneg db). apply js_number_safe.
    unfold MAX_SAFE_INTEGER in Hsafe. lia. }
  destruct (submit_valid_stored v now req db fn em Hf Hfn He Hem)
    as (row & Hsub & Hid & _); [lia |].
  set (rid := (high_water db + 1)%Z) in *.
  set (db2 := {| responses := responses db; sqlite_sequence := rid |}).
  assert (Hhw2 : high_water db2 = rid).
  { unfold high_water at 1. cbn [responses sqlite_sequence db2].
    unfold rid, high_water. lia. }
  destruct (submit_valid_stored v'' now' req' db2 fn' em' Hf' Hfn' He' Hem')
    as (row' & Hsub' & _); [lia |].
  rewrite Hhw2 in Hsub'.
  eexists rid, _, db2, _. split; [exact Hsub |].
  split; [exact Hjs |]. split; [exact Hjs' |].
  rewrite Hjs. intros Hdel.
  assert (Hkept :
    List.filter (fun r => negb (id_matches (Req.params_id del) r))
      (responses db ++ [row]) = responses db).
  { rewrite filter_app_last.
    assert (id_matches (Req.params_id del) row = true) as ->.
    { unfold id_matches. by rewrite Hdel, rowid_of_decimal, Hid, Z.eqb_refl. }
    cbn [negb]. rewrite app_nil_r. apply filter_none_removed.
    intros r Hr. rewrite (fresh_row_not_matched db); [done | | done].
    by rewrite Hdel, rowid_of_decimal. }
  split; [| split; [done | exact Hsub']].
  unfold delete_response, sql_delete_by_id. cbn [responses sqlite_sequence].
  rewrite Hkept, length_app. cbn [length].
  replace (length (responses db) + 1 - length (responses db))%nat with 1%nat by lia.
  by destruct v'.
Qed.

Lemma deleted_id_is_not_reissued_witness :
  exists responseId db1 db2 db3,
    submit_questionnaire V1 false "2025-01-02 10:00:00" ana_request empty_db =
      (db1, json (Saved responseId "Response saved successfully")) /\
    js_number responseId = responseId /\
    js_number (responseId + 1) = (responseId + 1)%Z /\
    (Req.params_id (bare_request "1" JUndefined) =
       decimal (js_number responseId) ->
     delete_response V3 false (bare_request "1" JUndefined) db1 =
       (db2, json (Message true "Response deleted successfully")) /\
     responses db2 = responses empty_db /\
     submit_questionnaire V2 false "2025-01-03 09:30:00" ana_request db2 =
       (db3, json (Saved (responseId + 1)%Z "Response saved successfully"))).
Proof.
  apply (deleted_id_is_not_reissued V1 V3 V2 "2025-01-02 10:00:00"
           "2025-01-03 09:30:00" ana_request ana_request
           (bare_request "1" JUndefined) empty_db).
  - by exists "Ana", "a@x.com".
  - by exists "Ana", "a@x.com".
  - vm_compute. discriminate.
Defined.

Lemma filter_filter_comm {A} (f g : A -> bool) l :
  List.filter f (List.filter g l) = List.filter g (List.filter f l).
Proof.
  induction l as [|x l IH]; [done |]. cbn.
  destruct (f x) eqn:Hf, (g x) eqn:Hg; cbn; rewrite ?Hf, ?Hg, IH; done.
Qed.

Lemma filter_idem {A} (f : A -> bool) l :
  List.filter f (List.filter f l) = List.filter f l.
Proof.
  induction l as [|x l IH]; [done |]. cbn.
  destruct (f x) eqn:Hf; cbn; rewrite ?Hf, IH; done.
Qed.

Lemma find_filter_other {A} (f g : A -> bool) l :
  (forall x, f x = true -> g x = true) ->
  List.find f (List.filter g l) = List.find f l.
Proof.
  intros Hfg. induction l as [|x l IH]; [done |]. cbn.
  destruct (f x) eqn:Hf.
  - rewrite (Hfg x Hf). cbn. by rewrite Hf.
  - destruct (g x); cbn; rewrite ?Hf; done.
Qed.

(** X8.  Deleting is idempotent and deletions commute, as far as the
    database goes: whichever variants serve them, deleting an identifier a
    second time changes nothing, and two deletions leave the same database
    in either order. *)
Theorem deletions_commute v1 v2 v3 v4 a b db :
  fst (delete_response v2 false a (fst (delete_response v1 false a db))) =
    fst (delete_response v1 false a db) /\
  fst (delete_response v2 false b (fst (delete_response v1 false a db))) =
    fst (delete_response v4 false a (fst (delete_response v3 false b db))).
Proof.
  assert (Hfst : forall v req d,
    fst (delete_response v false req d) =
    {| responses := List.filter (fun r => negb (id_matches (Req.params_id req) r))
                      (responses d);
       sqlite_sequence := sqlite_sequence d |}).
  { intros v req d. unfold delete_response, sql_delete_by_id.
    destruct v; try done; by destruct (_ =? 0)%nat. }
  rewrite !Hfst. cbn [responses sqlite_sequence]. split.
  - by rewrite filter_idem.
  - by rewrite filter_filter_comm.
Qed.

(** X9.  A deletion touches only the rows under its identifier: a lookup
    under a different identifier is answered after the deletion as it was
    before. *)
Theorem deletion_spares_other_ids v v' del lookup db k k' :
  Req.params_id del = decimal k ->
  Req.params_id lookup = decimal k' ->
  k <> k' ->
  get_response v' false lookup (fst (delete_response v false del db)) =
  get_response v' false lookup db.
Proof.
  intros Hdel Hlookup Hne.
  assert (fst (delete_response v false del db) =
    {| responses := List.filter (fun r => negb (id_matches (Req.params_id del) r))
                      (responses db);
       sqlite_sequence := sqlite_sequence db |}) as ->.
  { unfold delete_response, sql_delete_by_id.
    destruct v; try done; by destruct (_ =? 0)%nat. }
  unfold get_response, db_call, sql_select_by_id. cbn [responses].
  rewrite find_filter_other; [done |].
  intros r. unfold id_matches.
  rewrite Hdel, Hlookup, !rowid_of_decimal.
  intros <-%Z.eqb_eq. by apply negb_true_iff, Z.eqb_neq.
Qed.

Lemma deletion_spares_other_ids_witness :
  get_response V1 false (bare_request "1" JUndefined)
    (fst (delete_response V3 false (bare_request "2" JUndefined) ana_db)) =
  get_response V1 false (bare_request "1" JUndefined) ana_db.
Proof.
  apply (deletion_spares_other_ids V3 V1 (bare_request "2" JUndefined)
           (bare_request "1" JUndefined) ana_db 2 1);
    [reflexivity | reflexivity | discriminate].
Defined.

(** ** Search and listing *)

Lemma insert_desc_first r l :
  (forall y, In y l -> sql_leb (submitted_at r) (submitted_at y) = false) ->
  insert_desc r l = r :: l.
Proof.
  destruct l as [|x l]; [done |]. intros H. cbn.
  by rewrite (H x) by (by left).
Qed.

(** Filtering a sorted list and inserting a row can be done in either
    order. *)
Lemma insert_desc_filter (p : Row -> bool) r sorted :
  StronglySorted newest_first sorted ->
  List.filter p (insert_desc r sorted) =
  if p r then insert_desc r (List.filter p sorted) else List.filter p sorted.
Proof.
  induction 1 as [|x l Hl IH Hx]; [by cbn; destruct (p r) |].
  cbn [insert_desc].
  destruct (sql_leb (submitted_at r) (submitted_at x)) eqn:Hrx.
  - cbn [List.filter]. rewrite IH.
    destruct (p r), (p x); cbn [insert_desc]; by rewrite ?Hrx.
  - change (List.filter p (r :: x :: l))
      with (if p r then r :: List.filter p (x :: l) else List.filter p (x :: l)).
    destruct (p r) eqn:Hpr; [| done].
    rewrite insert_desc_first; [done |].
    intros y [Hy _]%filter_In.
    destruct Hy as [<- | Hy]; [done |].
    apply list_elem_of_In in Hy. apply (proj1 (Forall_forall _ _) Hx) in Hy.
    destruct (sql_leb (submitted_at r) (submitted_at y)) eqn:Hry; [| done].
    by rewrite (sql_leb_trans _ _ _ Hry Hy) in Hrx.
Qed.

Lemma order_by_filter_fold (p : Row -> bool) rows acc :
  StronglySorted newest_first acc ->
  fold_left (fun sorted r => insert_desc r sorted)
    (List.filter p rows) (List.filter p acc) =
  List.filter p (fold_left (fun sorted r => insert_desc r sorted) rows acc).
Proof.
  revert acc. induction rows as [|r rows IH]; intros acc Hacc; [done |].
  cbn [List.filter fold_left].
  rewrite <- IH by (by apply insert_desc_sorted).
  rewrite insert_desc_filter by done.
  by destruct (p r).
Qed.

(** ORDER BY after WHERE is WHERE after ORDER BY. *)
Lemma order_by_filter (p : Row -> bool) rows :
  order_by_submitted_at_desc (List.filter p rows) =
  List.filter p (order_by_submitted_at_desc rows).
Proof.
  apply (order_by_filter_fold p rows []). constructor.
Qed.

(** X10.  The search returns the rows of the listing that match, in the
    order of the listing: both handlers read the same ordered rows, and
    the search keeps those whose [first_name] or [email] matches the
    pattern, without reordering them. *)
Theorem search_is_filtered_listing v req db q :
  Req.query req = JStr q -> q <> "" ->
  exists listed,
    get_responses v false db =
      json (Rows "responses" (length listed)
              (List.map (select (listing_columns v)) listed)) /\
    search v false req db =
      json (Rows (rows_key v)
              (length (List.filter (like_selects q) listed))
              (List.map (select all_columns)
                 (List.filter (like_selects q) listed))).
Proof.
  intros Hq Hne. exists (sql_select_all db). split.
  - unfold get_responses, db_call. by rewrite length_map.
  - rewrite (search_with_query v req db q Hq Hne).
    unfold sql_select_all. rewrite order_by_filter.
    by rewrite <- order_by_filter, (Permutation_length (order_by_perm _)),
      order_by_filter.
Qed.

Lemma search_is_filtered_listing_witness :
  exists listed,
    get_responses V1 false ana_db =
      json (Rows "responses" (length listed)
              (List.map (select (listing_columns V1)) listed)) /\
    search V1 false (bare_request "" (JStr "an")) ana_db =
      json (Rows (rows_key V1)
              (length (List.filter (like_selects "an") listed))
              (List.map (select all_columns)
                 (List.filter (like_selects "an") listed))).
Proof.
  apply (search_is_filtered_listing V1 (bare_request "" (JStr "an")) ana_db "an").
  - reflexivity.
  - discriminate.
Defined.

Lemma to_lower_idem c : to_lower (to_lower c) = to_lower c.
Proof. by destruct c as [[] [] [] [] [] [] [] []]. Qed.

Lemma to_lower_percent c : Ascii.eqb (to_lower c) "%" = Ascii.eqb c "%".
Proof. by destruct c as [[] [] [] [] [] [] [] []]. Qed.

Lemma to_lower_underscore c : Ascii.eqb (to_lower c) "_" = Ascii.eqb c "_".
Proof. by destruct c as [[] [] [] [] [] [] [] []]. Qed.

Lemma like_one p text :
  like (String "_" p) text =
  match text with
  | EmptyString => false
  | String _ text' => like p text'
  end.
Proof. reflexivity. Qed.

(** LIKE sees its operands up to the case of ASCII letters. *)
Lemma like_lower p text :
  like p text = like (lower_string p) (lower_string text).
Proof.
  revert text. induction p as [|c p IH]; intros text.
  - by destruct text.
  - cbn [lower_string].
    destruct (Ascii.eqb_spec c "%") as [-> | Hpercent].
    + change (to_lower "%") with "%"%char.
      induction text as [|d text IHt].
      * rewrite !like_any_run. by rewrite IH.
      * rewrite like_any_run, IHt, IH. cbn [lower_string].
        by rewrite (like_any_run (lower_string p) (String _ _)).
    + destruct (Ascii.eqb_spec c "_") as [-> | Hunderscore].
      * change (to_lower "_") with "_"%char. rewrite !like_one.
        destruct text as [|d text]; [done |]. cbn [lower_string]. apply IH.
      * rewrite !like_literal; try done.
        -- destruct text as [|d text]; [done |]. cbn [lower_string].
           by rewrite !to_lower_idem, IH.
        -- intros H%Ascii.eqb_eq. rewrite to_lower_percent in H.
           by apply Ascii.eqb_eq in H.
        -- intros H%Ascii.eqb_eq. rewrite to_lower_underscore in H.
           by apply Ascii.eqb_eq in H.
Qed.

Lemma lower_string_append a b :
  lower_string (a +:+ b) = lower_string a +:+ lower_string b.
Proof.
  induction a as [|x a IH]; [done |].
  rewrite append_cons. cbn [lower_string]. by rewrite append_cons, IH.
Qed.

(** X11.  The search does not see the case of ASCII letters in the query:
    two requests whose queries differ only by it are answered alike, on
    every table and in every variant. *)
Theorem search_ignores_ascii_case v fault req req' db q q' :
  Req.query req = JStr q -> Req.query req' = JStr q' ->
  lower_string q = lower_string q' ->
  search v fault req db = search v fault req' db.
Proof.
  intros Hq Hq' Hlow.
  assert (Hempty : truthy (JStr q) = truthy (JStr q')).
  { cbn. destruct q, q'; cbn in *; done. }
  assert (Hrows : search_rows v fault (JStr q) db = search_rows v fault (JStr q') db).
  { unfold search_rows, sql_search. cbn [template].
    rewrite (filter_ext _
      (fun r => sql_like (first_name r) ("%" +:+ q' +:+ "%") ||
                sql_like (email r) ("%" +:+ q' +:+ "%"))); [done |].
    assert (Hlike : forall t, sql_like t ("%" +:+ q +:+ "%") =
                              sql_like t ("%" +:+ q' +:+ "%")).
    { intros [t|]; [| done]. cbn [sql_like].
      rewrite (like_lower _ t), (like_lower ("%" +:+ q' +:+ "%") t).
      by rewrite !lower_string_append, Hlow. }
    intros r. by rewrite !Hlike. }
  unfold search, JS.or. rewrite Hq, Hq', Hempty.
  destruct v; rewrite ?Hrows; try done.
  by destruct (truthy (JStr q')).
Qed.

Lemma search_ignores_ascii_case_witness :
  search V1 false (bare_request "" (JStr "ANA")) ana_db =
  search V1 false (bare_request "" (JStr "ana")) ana_db.
Proof.
  apply (search_ignores_ascii_case V1 false (bare_request "" (JStr "ANA"))
           (bare_request "" (JStr "ana")) ana_db "ANA" "ana");
    reflexivity.
Defined.

(** ** Statistics and the table *)

(** X12.  What the aggregates of variant 3 say of each other.  The three
    statements are not one transaction, so each aggregate is about the
    table as its own statement found it: [totalResponses] is the number of
    rows the first one found, which is the count a listing of that table
    reports, and [todayResponses] and [uniqueEmails] are between zero and
    the number of rows the second and the third found.  They are within
    [totalResponses] when the table has not grown since the first
    statement, as when nothing was written in between; a submission
    landing after the first statement can make them exceed it. *)
Theorem stats_are_consistent v now db_total db_today db_unique :
  (exists t d u rows,
     get_stats_v3_interleaved (fun _ => false) now db_total db_today db_unique =
       json (Stats (<["totalResponses" := t]>
                    (<["todayResponses" := d]>
                     (<["uniqueEmails" := u]> ∅)))) /\
     t = Z.of_nat (length (responses db_total)) /\
     (0 <= d <= Z.of_nat (length (responses db_today)))%Z /\
     (0 <= u <= Z.of_nat (length (responses db_unique)))%Z /\
     ((length (responses db_today) <= length (responses db_total))%nat ->
      (d <= t)%Z) /\
     ((length (responses db_unique) <= length (responses db_total))%nat ->
      (u <= t)%Z) /\
     get_responses v false db_total = json (Rows "responses" (Z.to_nat t) rows)) /\
  (exists t d u,
     get_stats_v3 (fun _ => false) now db_total =
       json (Stats (<["totalResponses" := t]>
                    (<["todayResponses" := d]>
                     (<["uniqueEmails" := u]> ∅)))) /\
     (0 <= d <= t)%Z /\ (0 <= u <= t)%Z) /\
  get_stats_v3_interleaved (fun _ => false) "2025-01-02 12:00:00"
    empty_db ana_db ana_db =
    json (Stats (<["totalResponses" := 0%Z]>
                 (<["todayResponses" := 1%Z]>
                  (<["uniqueEmails" := 1%Z]> ∅)))).
Proof.
  assert (Hd : forall db,
            (length (List.filter
                       (fun r => same_date (sql_date (submitted_at r))
                                           (sql_date (Some now)))
                       (responses db)) <= length (responses db))%nat)
    by (intros db; apply filter_length_le).
  pose proof (fun db => distinct_count_le email (responses db)) as Hu.
  split; [| split; [| done]].
  - exists (sql_count_total db_total), (sql_count_today now db_today),
           (sql_count_unique_emails db_unique),
           (List.map (select (listing_columns v)) (sql_select_all db_total)).
    split; [done |].
    unfold sql_count_total, sql_count_today, sql_count_unique_emails.
    split; [done |].
    specialize (Hd db_today). specialize (Hu db_unique).
    split; [lia |]. split; [lia |]. split; [lia |]. split; [lia |].
    unfold get_responses, db_call. rewrite length_map, Nat2Z.id.
    unfold sql_select_all.
    by rewrite (Permutation_length (order_by_perm _)).
  - exists (sql_count_total db_total), (sql_count_today now db_total),
           (sql_count_unique_emails db_total).
    split; [done |].
    unfold sql_count_total, sql_count_today, sql_count_unique_emails.
    specialize (Hd db_total). specialize (Hu db_total). lia.
Qed.

Lemma stats_are_consistent_witness :
  exists t d u,
    get_stats_v3_interleaved (fun _ => false) "2025-01-02 12:00:00"
      ana_then_bob_db ana_db ana_db =
      json (Stats (<["totalResponses" := t]>
                   (<["todayResponses" := d]>
                    (<["uniqueEmails" := u]> ∅)))) /\
    t = 2%Z /\ (d <= t)%Z /\ (u <= t)%Z.
Proof.
  destruct (proj1 (stats_are_consistent V1 "2025-01-02 12:00:00"
                     ana_then_bob_db ana_db ana_db))
    as (t & d & u & rows & Hstats & Ht & _ & _ & Hdt & Hut & _).
  exists t, d, u. split; [exact Hstats |]. split; [exact Ht |]. split.
  - apply Hdt. vm_compute. lia.
  - apply Hut. vm_compute. lia.
Defined.

Lemma omap_app_last {A B} (f : A -> option B) l x :
  omap f (l ++ [x])%list =
  (omap f l ++ match f x with Some y => [y] | None => [] end)%list.
Proof.
  induction l as [|y l IH]; [by cbn; destruct (f x) |].
  cbn. rewrite IH. by destruct (f y).
Qed.

(** X13.  What a stored submission does to the aggregates: the total grows
    by one; the count of a day grows by one when the clock of the insert
    was on that day and is unchanged otherwise; and the number of distinct
    e-mail addresses grows by one when the address is new to the table and
    is unchanged when it is already there. *)
Theorem stats_after_submission v now req db fn em :
  Req.firstName (Req.body req) = JStr fn -> fn <> "" ->
  Req.email (Req.body req) = JStr em -> em <> "" ->
  (high_water db < MAX_ROWID)%Z ->
  let db' := fst (submit_questionnaire v false now req db) in
  sql_count_total db' = (sql_count_total db + 1)%Z /\
  (forall day,
     sql_count_today day db' =
     (sql_count_today day db +
      if bool_decide (substring 0 10 now = substring 0 10 day) then 1 else 0)%Z) /\
  sql_count_unique_emails db' =
    (sql_count_unique_emails db +
     if bool_decide (em ∈ distinct_emails db) then 0 else 1)%Z.
Proof.
  intros Hf Hfn He Hem Hroom db'.
  destruct (submit_valid_stored v now req db fn em Hf Hfn He Hem Hroom)
    as (row & Hsub & _ & _ & Hemail & Hat).
  unfold db'. rewrite Hsub. cbn [fst]. split; [| split].
  - unfold sql_count_total. cbn [responses]. rewrite length_app. cbn. lia.
  - intros day. unfold sql_count_today. cbn [responses].
    rewrite filter_app_last, length_app, Hat. cbn [sql_date option_map same_date].
    case_bool_decide as Hday.
    + rewrite (proj2 (String.eqb_eq _ _) Hday). cbn. lia.
    + rewrite (proj2 (String.eqb_neq _ _) Hday). cbn. lia.
  - rewrite !count_unique_emails_spec. unfold distinct_emails. cbn [responses].
    rewrite omap_app_last, Hemail, list_to_set_app_L. cbn [list_to_set].
    rewrite union_empty_r_L.
    case_bool_decide as Hin.
    + rewrite (comm_L (∪)), subseteq_union_1_L
        by (by apply singleton_subseteq_l).
      lia.
    + rewrite size_union by (by apply disjoint_singleton_r).
      rewrite size_singleton. lia.
Qed.

Lemma stats_after_submission_witness :
  sql_count_total
    (fst (submit_questionnaire V1 false "2025-01-03 09:30:00" ana_request ana_db)) =
  (sql_count_total ana_db + 1)%Z.
Proof.
  apply (stats_after_submission V1 "2025-01-03 09:30:00" ana_request ana_db
           "Ana" "a@x.com"); try reflexivity; discriminate.
Defined.

(** ** What the export loses *)

Lemma blank_alike_text a b :
  blank_alike a b ->
  template (JS.or (js_of_sql (sql_text a)) (JStr "")) =
  template (JS.or (js_of_sql (sql_text b)) (JStr "")).
Proof.
  rewrite !or_empty_text.
  by intros [-> | [[-> ->] | [-> ->]]].
Qed.

Lemma null_alike_text a b :
  null_alike a b ->
  template (js_of_sql (sql_text a)) = template (js_of_sql (sql_text b)).
Proof. by intros [-> | [[-> ->] | [-> ->]]]. Qed.

(** X14.  The export does not tell NULL from text.  In the columns read
    with the fallback [|| ''] (the answers; in variant 3 also the address
    and the user agent) NULL and the empty string give the same field; in
    the columns read without it (among them the address in variants 1 and
    2) NULL and the text [null] do.  Rows that differ only so have the
    same line. *)
Theorem export_loses_null v r r' :
  export_alike v r r' ->
  csv_line v (select all_columns r) = csv_line v (select all_columns r').
Proof.
  intros (Hid & Hfn & Hem & Hq & Hat & Hrest).
  unfold row_answers in Hq.
  apply Forall2_cons in Hq as [H1 Hq]. apply Forall2_cons in Hq as [H2 Hq].
  apply Forall2_cons in Hq as [H3 Hq]. apply Forall2_cons in Hq as [H4 Hq].
  apply Forall2_cons in Hq as [H5 _].
  unfold csv_line. rewrite !property_select_all.
  cbn [col_value]. rewrite Hid.
  rewrite (null_alike_text _ _ Hfn), (null_alike_text _ _ Hem),
    (null_alike_text _ _ Hat).
  rewrite (blank_alike_text _ _ H1), (blank_alike_text _ _ H2),
    (blank_alike_text _ _ H3), (blank_alike_text _ _ H4),
    (blank_alike_text _ _ H5).
  destruct v.
  - by rewrite (null_alike_text _ _ Hrest).
  - by rewrite (null_alike_text _ _ Hrest).
  - destruct Hrest as [Hip Hua].
    by rewrite (blank_alike_text _ _ Hip), (blank_alike_text _ _ Hua).
Qed.

Lemma export_loses_null_witness :
  csv_line V1 (select all_columns ana_row) =
  csv_line V1 (select all_columns
    {| id := 1; first_name := Some "Ana"; email := Some "a@x.com";
       question_1 := Some ""; question_2 := None; question_3 := None;
       question_4 := None; question_5 := None;
       submitted_at := Some "2025-01-02 10:00:00";
       ip_address := Some "127.0.0.1"; user_agent := None |}).
Proof.
  apply (export_loses_null V1).
  unfold export_alike, row_answers. cbn.
  split; [reflexivity |]. split; [by left |]. split; [by left |].
  split; [| split; by left].
  constructor; [right; left; by split |].
  repeat constructor; by left.
Defined.

Lemma csv_line_unescaped v i a b c q1 q2 q3 q4 q5 at_ ip ua :
  csv_line v (select all_columns
    {| id := i;
       first_name := Some (a +:+ dquote +:+ "," +:+ dquote +:+ b);
       email := Some c;
       question_1 := q1; question_2 := q2; question_3 := q3;
       question_4 := q4; question_5 := q5;
       submitted_at := at_; ip_address := ip; user_agent := ua |}) =
  csv_line v (select all_columns
    {| id := i;
       first_name := Some a;
       email := Some (b +:+ dquote +:+ "," +:+ dquote +:+ c);
       question_1 := q1; question_2 := q2; question_3 := q3;
       question_4 := q4; question_5 := q5;
       submitted_at := at_; ip_address := ip; user_agent := ua |}).
Proof.
  unfold csv_line. rewrite !property_select_all.
  cbn [col_value sql_text js_of_sql template id first_name email question_1
       question_2 question_3 question_4 question_5 submitted_at ip_address
       user_agent].
  unfold quoted. by rewrite !append_assoc.
Qed.

(** X15.  The export escapes nothing.  A double quote and a comma inside a
    field are written as they are, so where a field ends cannot be read
    back: the table whose one row has the name [a","b] and the address [c]
    is exported as the table whose one row has the name [a] and the
    address [b","c]. *)
Theorem export_does_not_escape v fault n i a b c q1 q2 q3 q4 q5 at_ ip ua :
  export_csv v fault
    {| responses :=
         [{| id := i;
             first_name := Some (a +:+ dquote +:+ "," +:+ dquote +:+ b);
             email := Some c;
             question_1 := q1; question_2 := q2; question_3 := q3;
             question_4 := q4; question_5 := q5;
             submitted_at := at_; ip_address := ip; user_agent := ua |}];
       sqlite_sequence := n |} =
  export_csv v fault
    {| responses :=
         [{| id := i;
             first_name := Some a;
             email := Some (b +:+ dquote +:+ "," +:+ dquote +:+ c);
             question_1 := q1; question_2 := q2; question_3 := q3;
             question_4 := q4; question_5 := q5;
             submitted_at := at_; ip_address := ip; user_agent := ua |}];
       sqlite_sequence := n |}.
Proof.
  unfold export_csv, db_call, sql_select_all, order_by_submitted_at_desc.
  cbn [responses fold_left insert_desc List.map].
  destruct fault; [done |]. cbn [fold_left].
  by rewrite csv_line_unescaped.
Qed.

(** ** Order and identity of the rows *)

Lemma order_by_increasing_fold rows acc :
  StronglySorted submitted_before rows ->
  (forall y r, In y acc -> In r rows -> submitted_before y r) ->
  fold_left (fun sorted r => insert_desc r sorted) rows acc =
  (rev rows ++ acc)%list.
Proof.
  intros Hrows. revert acc.
  induction Hrows as [|r rows _ IH Hr]; intros acc Hacc; [done |].
  cbn [fold_left rev]. rewrite insert_desc_first.
  - rewrite IH; [by rewrite <- app_assoc |].
    intros y r' [<- | Hy] Hr'.
    + apply (proj1 (Forall_forall _ _) Hr). by apply list_elem_of_In.
    + apply Hacc; [done | by right].
  - intros y Hy. destruct (Hacc y r Hy) as [Hle Hne]; [by left |].
    destruct (sql_leb (submitted_at r) (submitted_at y)) eqn:Hry; [| done].
    destruct Hne. by apply sql_leb_antisym.
Qed.

(** X16.  When every row of the table was submitted strictly later than
    the rows before it, the listing reads the table backwards: it returns
    the rows in the reverse of their order of insertion. *)
Theorem listing_reverses_insertion_order v db :
  StronglySorted submitted_before (responses db) ->
  get_responses v false db =
  json (Rows "responses" (length (responses db))
          (List.map (select (listing_columns v)) (rev (responses db)))).
Proof.
  intros Hsorted. unfold get_responses, db_call, sql_select_all,
    order_by_submitted_at_desc.
  rewrite order_by_increasing_fold by (done || by intros ? ? []).
  by rewrite app_nil_r, length_map, length_rev.
Qed.

Lemma listing_reverses_insertion_order_witness :
  get_responses V3 false ana_then_bob_db =
  json (Rows "responses" (length (responses ana_then_bob_db))
          (List.map (select (listing_columns V3))
             (rev (responses ana_then_bob_db)))).
Proof.
  apply (listing_reverses_insertion_order V3 ana_then_bob_db).
  repeat constructor; discriminate.
Defined.

Lemma find_unique_id rows r param :
  NoDup (List.map id rows) -> In r rows ->
  rowid_of_text param = Some (id r) ->
  List.find (id_matches param) rows = Some r.
Proof.
  intros Hnd Hr Hp.
  destruct (List.find (id_matches param) rows) as [r'|] eqn:Hfind.
  - apply find_some in Hfind as [Hr' Hm]. f_equal.
    eapply same_id_same_row; eauto.
    unfold id_matches in Hm. rewrite Hp in Hm. by apply Z.eqb_eq in Hm.
  - pose proof (find_none _ _ Hfind r Hr) as Hm.
    unfold id_matches in Hm. by rewrite Hp, Z.eqb_refl in Hm.
Qed.

(** X17.  Every row the service holds can be fetched under its own
    identifier.  In any state reached from the empty table by submissions
    and deletions, each row has a positive identifier no greater than the
    sequence and a timestamp, and the lookup under the decimal text of
    that identifier answers 200 with that very row. *)
Theorem every_row_is_fetched_by_its_id ops v r :
  In r (responses (fst (run ops empty_db))) ->
  (0 < id r <= sqlite_sequence (fst (run ops empty_db)))%Z /\
  submitted_at r <> None /\
  forall lookup,
    Req.params_id lookup = decimal (id r) ->
    get_response v false lookup (fst (run ops empty_db)) =
    json (Single (select all_columns r)).
Proof.
  intros Hr.
  destruct (run_steps ops empty_db table_invariant_empty)
    as (Hinv & _ & _ & _ & _).
  assert (Hnew : (0 < id r)%Z /\ submitted_at r <> None).
  { destruct (run_rows (fun r => (0 < id r)%Z /\ submitted_at r <> None)
                ops empty_db) with (r := r) as [[] | H]; [| done | done].
    apply Forall_forall. intros [w fault now req | w fault req] _ db r' Hr';
      cbn [perform] in Hr'.
    - destruct (submit_appends w fault now req db)
        as [Hsame | (fn & em & q1 & q2 & q3 & q4 & q5 & ip & ua & _ & Hsub)].
      + left. by rewrite Hsame in Hr'.
      + rewrite Hsub in Hr'. cbn [fst responses] in Hr'.
        apply in_app_or in Hr' as [Hold | [<- | []]]; [by left | right].
        cbn. split; [| done].
        pose proof (max_rowid_nonneg (responses db)). unfold high_water. lia.
    - left. by eapply delete_keeps_rows. }
  destruct Hnew as [Hpos Hat].
  split; [| split; [done |]].
  - split; [done |].
    pose proof (max_rowid_bound _ _ Hr). pose proof (inv_sequence _ Hinv). lia.
  - intros lookup Hl. unfold get_response, db_call, sql_select_by_id.
    rewrite (find_unique_id _ r); [done | apply Hinv | done |].
    by rewrite Hl, rowid_of_decimal.
Qed.

Lemma every_row_is_fetched_by_its_id_witness :
  (0 < id ana_row <=
   sqlite_sequence
     (fst (run [Submit V1 false "2025-01-02 10:00:00" ana_request] empty_db)))%Z.
Proof.
  apply (every_row_is_fetched_by_its_id
           [Submit V1 false "2025-01-02 10:00:00" ana_request] V1 ana_row).
  left. reflexivity.
Defined.

(** ** The callbacks of the statistics of variant 1 *)

Lemma stats_fold_waits faults now db order run :
  (completed run + length order < 3)%nat ->
  answer (fold_left
            (fun run key =>
               stats_callback key (db_call (faults key) (stat_query now db key)) run)
            order run) = answer run.
Proof.
  revert run. induction order as [|k order IH]; intros run Hlen; [done |].
  cbn [fold_left length] in *. rewrite IH by (cbn; lia).
  cbn [answer stats_callback].
  destruct (Nat.eqb_spec (S (completed run)) 3); [lia | done].
Qed.

(** X18.  The statistics handler of variant 1 answers when the third
    callback has run and not before; and when all three queries fail it
    still answers 200, with an empty [stats] object. *)
Theorem stats_v1_waits_then_always_answers faults now db order :
  ((length order < 3)%nat -> get_stats_v1 order faults now db = None) /\
  (order ≡ₚ all_stats -> (forall k, faults k = true) ->
   get_stats_v1 order faults now db = Some (json (Stats ∅))).
Proof.
  split.
  - intros Hlen. unfold get_stats_v1. by rewrite stats_fold_waits.
  - intros Hperm Hall.
    destruct (get_stats_v1_answer faults now db order Hperm)
      as (m & -> & Hm & Hother).
    do 3 f_equal. apply map_eq. intros i. rewrite lookup_empty.
    pose proof (Hm total) as Ht. pose proof (Hm today) as Hd.
    pose proof (Hm uniqueEmails) as Hu.
    rewrite Hall in Ht, Hd, Hu. cbn [stat_name] in Ht, Hd, Hu.
    destruct (decide (i = "total")) as [-> | N1]; [done |].
    destruct (decide (i = "today")) as [-> | N2]; [done |].
    destruct (decide (i = "uniqueEmails")) as [-> | N3]; [done |].
    apply Hother. by intros [].
Qed.

Lemma stats_v1_waits_then_always_answers_witness :
  get_stats_v1 [today; total] (only_fails today) "2025-01-02 12:00:00" ana_db
  = None.
Proof.
  apply (stats_v1_waits_then_always_answers (only_fails today)
           "2025-01-02 12:00:00" ana_db [today; total]).
  cbn. lia.
Defined.
